(** * The calendar engine of dailytasks: Gregorian, Jalali and Hijri dates

    A shallow embedding of the calendar utilities of the repository (the
    module that starts with the comment "Robust Jalali Conversion
    Algorithms"), and the properties its specification states about them.

    Numbers.  A JavaScript number is an IEEE 754 binary64.  The Jalali
    converters only add, subtract and multiply integers and apply [div]
    and [%] to them; binary64 is exact on integers below 2^53, so these
    functions are written over [Z], with the 32-bit wrap of [~~] spelled
    out.  [gregorianToHijri] multiplies and divides by constants that are
    not integers (365.25, 30.6001, 10631/30, ...): it is written over the
    kernel's binary64 numbers, operation for operation.

    Contents.  The functions of the module, in its order; the vocabulary
    of the specification; the two steps of each Jalali converter; the
    callers of the module, [handleChange] of the date picker and the
    navigation and the week days of the month view.  Then the properties:
    the Jalali converters are inverse to each other on the calendar they
    implement, by arithmetic on the 33-year and 400-year cycles;
    [getJalaliDaysInMonth] follows another leap rule; the holiday
    functions; the Julian Day Number and the Hijri date, date by date on
    the binary64 operations; the converters day after day, the month view,
    the date picker, the keys of the holiday tables and the Hijri date day
    after day. *)

From Stdlib Require Import ZArith List Bool Lia.
From Stdlib Require Import Strings.String Strings.Ascii DecimalString.
From Stdlib Require Import DecimalPos DecimalZ.
From Stdlib Require Import Floats.PrimFloat Floats.SpecFloat Floats.FloatOps.
From Stdlib Require Import Floats.FloatAxioms.
From stdpp Require Import gmap strings.

Import ListNotations.
Local Open Scope Z_scope.
Set Warnings "-inexact-float".

(** ** JavaScript's integer operations *)

(** [ToInt32] of ECMA-262 on an integer: reduce modulo 2^32 into
    [-2^31, 2^31).  An integer already in that interval is left alone, which
    is what the reduction gives there ([toInt32_wrap] below). *)
Definition toInt32 (z : Z) : Z :=
  if (-2147483648 <=? z) && (z <? 2147483648) then z
  else (z + 2147483648) mod 4294967296 - 2147483648.

(** [function div(a, b) { return ~~(a / b); }]: the quotient truncated
    toward zero, then wrapped to 32 bits by the double bitwise not.  (The
    binary64 quotient of two integers below 2^53 has the integer part of the
    exact quotient; a division by zero gives an infinity or NaN, which
    [~~] turns into 0, as [Z.quot] has it.) *)
Definition div (a b : Z) : Z := toInt32 (Z.quot a b).

(** The [%] operator: the remainder takes the sign of the dividend.  The
    divisors in the code are non-zero constants. *)
Definition jsrem (a b : Z) : Z := Z.rem a b.

(** ** Gregorian to Jalali *)

Definition g_d_m : list Z :=
  [0; 31; 59; 90; 120; 151; 181; 212; 243; 273; 304; 334].

(** [gregorianToJalaliCore].  Reading [g_d_m[gm - 1]] outside the table
    gives [undefined] in JavaScript and every later number is NaN; the
    embedding answers [None] there. *)
Definition gregorianToJalaliCore (gy gm gd : Z) : option (Z * Z * Z) :=
  match (if gm - 1 <? 0 then None else nth_error g_d_m (Z.to_nat (gm - 1))) with
  | None => None
  | Some off =>
    let gy2 := if gm >? 2 then gy + 1 else gy in
    let days := 355666 + 365 * gy + div (gy2 + 3) 4 - div (gy2 + 99) 100
                + div (gy2 + 399) 400 + gd + off in
    let jy := -1595 + 33 * div days 12053 in
    let days := jsrem days 12053 in
    let jy := jy + 4 * div days 1461 in
    let days := jsrem days 1461 in
    let '(jy, days) :=
      if days >? 365
      then (jy + div (days - 1) 365, jsrem (days - 1) 365)
      else (jy, days) in
    if days <? 186
    then Some (jy, 1 + div days 31, 1 + jsrem days 31)
    else Some (jy, 7 + div (days - 186) 30, 1 + jsrem (days - 186) 30)
  end.

(** ** Jalali to Gregorian *)

(** The test inside [sal_a]: the Gregorian leap rule on the computed year. *)
Definition gregorianLeap (gy : Z) : bool :=
  ((jsrem gy 4 =? 0) && negb (jsrem gy 100 =? 0)) || (jsrem gy 400 =? 0).

Definition sal_a (gy : Z) : list Z :=
  [0; 31; if gregorianLeap gy then 29 else 28; 31; 30; 31; 30; 31; 31; 30; 31; 30; 31].

(** [for (gm = 0; gm < 13; gm++) { v = sal_a[gm]; if (gd <= v) break; gd -= v; }]
    run over the entries of [sal_a] that are left, [gm] being the index of
    the first of them.  When the table is exhausted the loop ends with
    [gm = 13]. *)
Fixpoint monthLoop (rest : list Z) (gm gd : Z) : Z * Z :=
  match rest with
  | [] => (gm, gd)
  | v :: rest' => if gd <=? v then (gm, gd) else monthLoop rest' (gm + 1) (gd - v)
  end.

Definition jalaliToGregorianCore (jy jm jd : Z) : Z * Z * Z :=
  let jy := jy + 1595 in
  let days := -355668 + 365 * jy + div jy 33 * 8 + div (jsrem jy 33 + 3) 4 + jd
              + (if jm <? 7 then (jm - 1) * 31 else (jm - 7) * 30 + 186) in
  let gy := 400 * div days 146097 in
  let days := jsrem days 146097 in
  let '(gy, days) :=
    if days >? 36524
    then
      let days := days - 1 in
      let gy := gy + 100 * div days 36524 in
      let days := jsrem days 36524 in
      (gy, if days >=? 365 then days + 1 else days)
    else (gy, days) in
  let gy := gy + 4 * div days 1461 in
  let days := jsrem days 1461 in
  let '(gy, days) :=
    if days >? 365
    then (gy + div (days - 1) 365, jsrem (days - 1) 365)
    else (gy, days) in
  let gd := days + 1 in
  let '(gm, gd) := monthLoop (sal_a gy) 0 gd in
  (gy, gm, gd).

(** ** Exports *)

Definition gregorianToJalali (gy gm gd : Z) : option (Z * Z * Z) :=
  gregorianToJalaliCore gy gm gd.

Definition jalaliToGregorian (jy jm jd : Z) : Z * Z * Z :=
  jalaliToGregorianCore jy jm jd.

Definition getJalaliDaysInMonth (jy jm : Z) : Z :=
  if jm <=? 6 then 31
  else if jm <=? 11 then 30
  else
    let isLeap := jsrem ((jy + 38) * 31) 128 <=? 30 in
    if isLeap then 30 else 29.

(** ** Binary64 numbers

    The reading of an integer as a number, [Math.floor], and the reading
    of a number as an integer, over the kernel's binary64. *)

(** The number nearest to an integer.  An integer below 2^53 in size is a
    number itself and is built from its 63-bit form; a larger one is
    rounded to nearest, ties to even. *)
Definition num (z : Z) : float :=
  if Z.abs z <? 9007199254740992 then
    let f := of_uint63 (Uint63Axioms.of_Z (Z.abs z)) in
    if z <? 0 then (- f)%float else f
  else SF2Prim (binary_normalize prec emax z 0 false).

(** [Math.floor].  NaN, the infinities and every number of size 2^52 or
    more are integers or have no floor other than themselves.  Below 2^52,
    adding and subtracting 2^52 rounds the absolute value to a nearest
    integer [t]; one is taken off when that went up, which leaves the
    integer part of the absolute value; the sign then decides between it
    and the integer below the opposite. *)
Definition Math_floor (x : float) : float :=
  let two52 := 4503599627370496%float in
  if (is_nan x || (two52 <=? abs x))%float then x
  else
    let t := (abs x + two52 - two52)%float in
    let t := if (abs x <? t)%float then (t - 1)%float else t in
    if (x <? 0)%float then
      if (t =? abs x)%float then x else (- (t + 1))%float
    else if (x =? 0)%float then x else t.

(** A finite number is [(-1)^s * m * 2^e]: its floor by integer division
    of the signed mantissa (the reference [Math_floor] is compared with). *)
Definition signedMantissa (s : bool) (m : positive) : Z :=
  if s then Z.neg m else Z.pos m.

Definition floorOfMantissa (x : float) : float :=
  match Prim2SF x with
  | S754_finite s m e =>
      if 0 <=? e then x else num (Z.shiftr (signedMantissa s m) (- e))
  | _ => x
  end.

(** The integer a number is, when it is one: [None] for NaN, the
    infinities and numbers with a fractional part. *)
Definition intOfNumber (x : float) : option Z :=
  match Prim2SF x with
  | S754_zero _ => Some 0
  | S754_finite s m e =>
      if 0 <=? e then Some (Z.shiftl (signedMantissa s m) e)
      else if Z.land (Z.pos m) (Z.ones (- e)) =? 0
           then Some (Z.shiftr (signedMantissa s m) (- e))
           else None
  | _ => None
  end.

Definition intsOfNumbers (t : float * float * float) : option (Z * Z * Z) :=
  let '(a, b, c) := t in
  match intOfNumber a, intOfNumber b, intOfNumber c with
  | Some x, Some y, Some z => Some (x, y, z)
  | _, _, _ => None
  end.

(** [x === z] of JavaScript, for a number and an integer. *)
Definition numberIs (x : float) (z : Z) : bool := (x =? num z)%float.

(** ** Gregorian to Hijri *)

Section HijriConversion.
Local Open Scope float_scope.

Definition CALIBRATION_OFFSET : float := -2.

(** Lines 110-128 of [gregorianToHijri]: the Julian Day Number of a
    Gregorian date, before the calibration is applied. *)
Definition gregorianToJdn (gy gm gd : float) : float :=
  let day := gd in
  let m := gm in
  let y := gy in
  let '(y, m) := if m <? 3 then (y - 1, m + 12) else (y, m) in
  let a := Math_floor (y / 100) in
  let b := 2 - a + Math_floor (a / 4) in
  let b := if y <? 1583 then 0 else b in
  let b :=
    if y =? 1582 then
      let b := if 10 <? m then -10 else b in
      if m =? 10 then (if 4 <? day then -10 else 0) else b
    else b in
  Math_floor (365.25 * (y + 4716)) + Math_floor (30.6001 * (m + 1)) + day + b - 1524.

(** Lines 133-148: the Gregorian date of a Julian Day Number.  The
    function computes it into [year], [month] and [day] and does not use
    it afterwards. *)
Definition jdnToGregorian (jd : float) : float * float * float :=
  let b :=
    if 2299160 <? jd then
      let a := Math_floor ((jd - 1867216.25) / 36524.25) in
      1 + a - Math_floor (a / 4)
    else 0 in
  let bb := jd + b + 1524 in
  let cc := Math_floor ((bb - 122.1) / 365.25) in
  let dd := Math_floor (365.25 * cc) in
  let ee := Math_floor ((bb - dd) / 30.6001) in
  let day := (bb - dd) - Math_floor (30.6001 * ee) in
  let month := ee - 1 in
  let '(cc, month) := if 13 <? ee then (cc + 1, ee - 13) else (cc, month) in
  let year := cc - 4716 in
  (year, month, day).

(** Lines 150-165: the Hijri date of a (calibrated) Julian Day Number. *)
Definition jdnToHijri (jd : float) : float * float * float :=
  let iyear := 10631.0 / 30.0 in
  let epochastro := 1948084 in
  let shift1 := 8.01 / 60.0 in
  let z := jd - epochastro in
  let cyc := Math_floor (z / 10631.0) in
  let z := z - 10631 * cyc in
  let j := Math_floor ((z - shift1) / iyear) in
  let iy := 30 * cyc + j in
  let z := z - Math_floor (j * iyear + shift1) in
  let im := Math_floor ((z + 28.5001) / 29.5) in
  let im := if im =? 13 then 12 else im in
  let im := if im =? 0 then 1 else im in
  let id := z - Math_floor (29.5 * im - 29) in
  (iy, im, id).

Definition gregorianToHijri (gy gm gd : float) : float * float * float :=
  let jd := gregorianToJdn gy gm gd in
  let jd := jd + CALIBRATION_OFFSET in
  let '(year, month, day) := jdnToGregorian jd in
  jdnToHijri jd.

End HijriConversion.

(** ** Calendar metadata tables *)

(** A JavaScript object used as a dictionary.  The keys the code looks up
    are built by the template [`${m}-${d}`] and contain a ['-'], so none
    of them names a property inherited from [Object.prototype]. *)
Definition SOLAR_HOLIDAYS : gmap string string :=
  list_to_map
    [ ("1-1", "عید نوروز");
      ("1-2", "عید نوروز");
      ("1-3", "عید نوروز");
      ("1-4", "عید نوروز");
      ("1-12", "روز جمهوری اسلامی");
      ("1-13", "روز طبیعت");
      ("3-14", "رحلت امام خمینی");
      ("3-15", "قیام ۱۵ خرداد");
      ("11-22", "پیروزی انقلاب اسلامی");
      ("12-29", "روز ملی شدن صنعت نفت") ]%string.

Definition LUNAR_HOLIDAYS : gmap string string :=
  list_to_map
    [ ("1-9", "تاسوعای حسینی");
      ("1-10", "عاشورای حسینی");
      ("2-20", "اربعین حسینی");
      ("2-28", "رحلت پیامبر (ص) و شهادت امام حسن (ع)");
      ("2-30", "شهادت امام رضا (ع)");
      ("8-15", "نیمه شعبان (ولادت امام زمان)");
      ("9-21", "شهادت حضرت علی (ع)");
      ("10-1", "عید سعید فطر");
      ("10-25", "شهادت امام جعفر صادق (ع)");
      ("12-10", "عید سعید قربان");
      ("12-18", "عید سعید غدیر خم") ]%string.

(** The decimal digits of an integer, as a template literal prints a
    number that is an integer (below 10^21; beyond, JavaScript switches to
    the exponent notation, which no key of the tables uses either). *)
Definition decimal (z : Z) : string := NilZero.string_of_int (Z.to_int z).

(** [`${m}-${d}`] for two integers. *)
Definition dateKey (m d : Z) : string := (decimal m ++ "-" ++ decimal d)%string.

(** What a template literal prints for a number: the digits of an
    integer, [NaN], [Infinity] or [-Infinity].  A number with a fractional
    part prints with a decimal point or an exponent, which no key of the
    tables contains; the embedding does not print it ([None]) and the
    lookup of such a key misses. *)
Definition numberToString (x : float) : option string :=
  match intOfNumber x with
  | Some z => Some (decimal z)
  | None =>
      if is_nan x then Some "NaN"%string
      else if (x =? infinity)%float then Some "Infinity"%string
      else if (x =? neg_infinity)%float then Some "-Infinity"%string
      else None
  end.

Definition numberKey (m d : float) : option string :=
  match numberToString m, numberToString d with
  | Some a, Some b => Some (a ++ "-" ++ b)%string
  | _, _ => None
  end.

(** [TABLE[key]]: the value stored under the key, or [undefined]. *)
Definition lookupKey (table : gmap string string) (key : option string) : option string :=
  match key with
  | Some k => table !! k
  | None => None
  end.

(** The truth value of [TABLE[key]] in an [if]: [undefined] and the empty
    string are false, every other string is true. *)
Definition truthy (v : option string) : bool :=
  match v with
  | Some s => negb (String.eqb s "")
  | None => false
  end.

(** ** Holidays *)

Definition getLunarDate (jy jm jd : Z) : float * float * float :=
  let '(gy, gm, gd) := jalaliToGregorian jy jm jd in
  gregorianToHijri (num gy) (num gm) (num gd).

Definition isHoliday (jy jm jd dayOfWeek : Z) : bool :=
  if dayOfWeek =? 6 then true
  else
    let solarKey := dateKey jm jd in
    if truthy (SOLAR_HOLIDAYS !! solarKey) then true
    else
      let '(ly, lm, ld) := getLunarDate jy jm jd in
      let lunarKey := numberKey lm ld in
      if truthy (lookupKey LUNAR_HOLIDAYS lunarKey) then true
      else false.

Definition getHolidayName (jy jm jd dayOfWeek : Z) : option string :=
  let solarKey := dateKey jm jd in
  if truthy (SOLAR_HOLIDAYS !! solarKey) then SOLAR_HOLIDAYS !! solarKey
  else
    let '(ly, lm, ld) := getLunarDate jy jm jd in
    let lunarKey := numberKey lm ld in
    if truthy (lookupKey LUNAR_HOLIDAYS lunarKey) then lookupKey LUNAR_HOLIDAYS lunarKey
    else if dayOfWeek =? 6 then Some "جمعه"%string
    else None.

(** The entries the two functions look up: [SOLAR_HOLIDAYS[solarKey]] and
    [LUNAR_HOLIDAYS[lunarKey]] for a Jalali date. *)
Definition solarEntry (jm jd : Z) : option string :=
  SOLAR_HOLIDAYS !! dateKey jm jd.

Definition lunarEntry (jy jm jd : Z) : option string :=
  let '(ly, lm, ld) := getLunarDate jy jm jd in
  lookupKey LUNAR_HOLIDAYS (numberKey lm ld).

(** ** Day of the week

    [new Date(gy, gm - 1, gd).getDay()], after ECMA-262: the constructor
    reads two-digit years as 19xx, [MakeDay] carries months outside 0-11
    into the year and counts days from 1 January 1970, a time value beyond
    8.64e15 ms is an invalid date (its [getDay] is NaN), and the week day
    of day 0 is Thursday (4).  The date is built and read in the same local
    time zone, whose offset does not move a local midnight to another
    calendar day. *)

Definition DayFromYear (y : Z) : Z :=
  365 * (y - 1970) + (y - 1969) / 4 - (y - 1901) / 100 + (y - 1601) / 400.

Definition InLeapYear (y : Z) : bool :=
  ((y mod 4 =? 0) && negb (y mod 100 =? 0)) || (y mod 400 =? 0).

Definition daysBeforeMonth (leap : bool) (mn : Z) : Z :=
  let l := if leap then 1 else 0 in
  nth (Z.to_nat mn) [0; 31; 59 + l; 90 + l; 120 + l; 151 + l; 181 + l;
                     212 + l; 243 + l; 273 + l; 304 + l; 334 + l] 0.

Definition MakeDay (year month date : Z) : Z :=
  let ym := year + month / 12 in
  let mn := month mod 12 in
  DayFromYear ym + daysBeforeMonth (InLeapYear ym) mn + date - 1.

Definition Date_getDay (year month date : Z) : option Z :=
  let yr := if (0 <=? year) && (year <=? 99) then 1900 + year else year in
  let day := MakeDay yr month date in
  if Z.abs day <=? 100000000 then Some ((day + 4) mod 7) else None.

(** [map[day]]; an invalid date has no week day and the result is
    [undefined]. *)
Definition getDayOfWeekJalali (jy jm jd : Z) : option Z :=
  let '(gy, gm, gd) := jalaliToGregorian jy jm jd in
  match Date_getDay gy (gm - 1) gd with
  | Some day => nth_error [1; 2; 3; 4; 5; 6; 0] (Z.to_nat day)
  | None => None
  end.

(** ** Vocabulary of the specification *)

(** A Gregorian date as the specification has it: the month in 1-12 and
    the day within the length of the month under the Gregorian leap rule. *)
Definition daysInGregorianMonth (gy gm : Z) : Z :=
  if gm =? 2 then (if InLeapYear gy then 29 else 28)
  else if (gm =? 4) || (gm =? 6) || (gm =? 9) || (gm =? 11) then 30
  else 31.

Definition validGregorian (gy gm gd : Z) : Prop :=
  1 <= gm <= 12 /\ 1 <= gd <= daysInGregorianMonth gy gm.

(** A Hijri date as the specification has it: the month is one of the
    integers 1-12 and the day one of the integers 1-30. *)
Definition validHijri (t : float * float * float) : Prop :=
  let '(iy, im, id) := t in
  exists m d : Z,
    numberIs im m = true /\ numberIs id d = true /\ 1 <= m <= 12 /\ 1 <= d <= 30.

(** ** The converters in two steps

    Each converter first counts days and then cuts the count into a date.
    The two steps are named here; the converters are these steps composed
    ([gregorianToJalaliCore_steps], [jalaliToGregorianCore_steps]). *)

(** The [days] that [gregorianToJalaliCore] computes first, [off] being
    [g_d_m[gm - 1]]. *)
Definition gregorianDays (gy gm gd off : Z) : Z :=
  let gy2 := if gm >? 2 then gy + 1 else gy in
  355666 + 365 * gy + div (gy2 + 3) 4 - div (gy2 + 99) 100
  + div (gy2 + 399) 400 + gd + off.

(** The rest of [gregorianToJalaliCore]: the Jalali date of a day count. *)
Definition jalaliOfDays (days : Z) : Z * Z * Z :=
  let jy := -1595 + 33 * div days 12053 in
  let days := jsrem days 12053 in
  let jy := jy + 4 * div days 1461 in
  let days := jsrem days 1461 in
  let '(jy, days) :=
    if days >? 365
    then (jy + div (days - 1) 365, jsrem (days - 1) 365)
    else (jy, days) in
  if days <? 186
  then (jy, 1 + div days 31, 1 + jsrem days 31)
  else (jy, 7 + div (days - 186) 30, 1 + jsrem (days - 186) 30).

(** The [days] that [jalaliToGregorianCore] computes first. *)
Definition jalaliDays (jy jm jd : Z) : Z :=
  let jy := jy + 1595 in
  -355668 + 365 * jy + div jy 33 * 8 + div (jsrem jy 33 + 3) 4 + jd
  + (if jm <? 7 then (jm - 1) * 31 else (jm - 7) * 30 + 186).

(** The end of [jalaliToGregorianCore], from the block of four years on. *)
Definition gregorianOfYearDays (gy days : Z) : Z * Z * Z :=
  let gy := gy + 4 * div days 1461 in
  let days := jsrem days 1461 in
  let '(gy, days) :=
    if days >? 365
    then (gy + div (days - 1) 365, jsrem (days - 1) 365)
    else (gy, days) in
  let gd := days + 1 in
  let '(gm, gd) := monthLoop (sal_a gy) 0 gd in
  (gy, gm, gd).

(** The rest of [jalaliToGregorianCore]: the Gregorian date of a day count. *)
Definition gregorianOfDays (days : Z) : Z * Z * Z :=
  let gy := 400 * div days 146097 in
  let days := jsrem days 146097 in
  let '(gy, days) :=
    if days >? 36524
    then
      let days := days - 1 in
      let gy := gy + 100 * div days 36524 in
      let days := jsrem days 36524 in
      (gy, if days >=? 365 then days + 1 else days)
    else (gy, days) in
  gregorianOfYearDays gy days.

(** The leap years before the year [y], as [gregorianDays] counts them,
    and the leap day of a year, as [sal_a] has it. *)
Definition leapCount (y : Z) : Z := (y + 3) / 4 - (y + 99) / 100 + (y + 399) / 400.

Definition leapDay (gy : Z) : Z := if gregorianLeap gy then 1 else 0.

(** The days before 1 January of the year [gy], counted from the year 0. *)
Definition yearStart (gy : Z) : Z := 365 * gy + leapCount gy.

(** The days of the year before the date, [off] being [g_d_m[gm - 1]]. *)
Definition dayOfYear (gy gm gd off : Z) : Z :=
  off + gd - 1 + (if gm >? 2 then leapDay gy else 0).

(** The leap years of the converters.  Going from 1 Farvardin of [jy] to
    1 Farvardin of the next year, [jalaliDays] grows by 366 when
    [(jy + 1595) % 33] is one of 0, 4, ..., 28 and by 365 otherwise
    ([jalaliDays_next_year]): the years of 366 days are eight in every 33. *)
Definition jalaliLeap (jy : Z) : bool :=
  let r := (jy + 1595) mod 33 in
  (r mod 4 =? 0) && negb (r =? 32).

(** The length of a month in the calendar the converters implement. *)
Definition jalaliMonthLength (jy jm : Z) : Z :=
  if jm <=? 6 then 31
  else if jm <=? 11 then 30
  else if jalaliLeap jy then 30 else 29.

(** ** Checking a property on every date of a range of years *)

Definition Zrange (lo : Z) (n : nat) : list Z :=
  map (fun i => lo + Z.of_nat i) (seq 0 n).

Definition forallRange (lo hi : Z) (p : Z -> bool) : bool :=
  forallb p (Zrange lo (Z.to_nat (hi - lo + 1))).

(** Every valid Gregorian date of the years [lo] to [hi], as numbers (the
    year and the month are read as numbers once for all their dates). *)
Definition forallGregorianNumbers (lo hi : Z) (p : float -> float -> float -> bool) : bool :=
  forallRange lo hi (fun gy =>
    let y := num gy in
    forallRange 1 12 (fun gm =>
      let m := num gm in
      forallRange 1 (daysInGregorianMonth gy gm) (fun gd => p y m (num gd)))).

(** The checks run on each date. *)

Definition jdnRoundTrip (gy gm gd : float) : bool :=
  let '(y, m, d) := jdnToGregorian (gregorianToJdn gy gm gd) in
  (y =? gy)%float && (m =? gm)%float && (d =? gd)%float.

(** The numbers 1 to 12 and 1 to 30 ([monthNumbers_eq], [dayNumbers_eq]). *)
Definition monthNumbers : list float :=
  [1; 2; 3; 4; 5; 6; 7; 8; 9; 10; 11; 12]%float.

Definition dayNumbers : list float :=
  [1; 2; 3; 4; 5; 6; 7; 8; 9; 10; 11; 12; 13; 14; 15; 16; 17; 18; 19; 20;
   21; 22; 23; 24; 25; 26; 27; 28; 29; 30]%float.

Definition validHijrib (t : float * float * float) : bool :=
  let '(iy, im, id) := t in
  existsb (PrimFloat.eqb im) monthNumbers && existsb (PrimFloat.eqb id) dayNumbers.

Definition hijriOfGregorianValid (gy gm gd : float) : bool :=
  validHijrib (gregorianToHijri gy gm gd).

(** The years of a range in which [getJalaliDaysInMonth] and the
    converters give Esfand different lengths. *)
Definition esfandMismatches (lo hi : Z) : list Z :=
  List.filter (fun jy => negb (getJalaliDaysInMonth jy 12 =? jalaliMonthLength jy 12))
         (Zrange lo (Z.to_nat (hi - lo + 1))).

(** ** Month names and the formatted date *)

Definition jalaliMonthNames : list string :=
  [ "فروردین"; "اردیبهشت"; "خرداد"; "تیر"; "مرداد"; "شهریور";
    "مهر"; "آبان"; "آذر"; "دی"; "بهمن"; "اسفند" ]%string.

Definition lunarMonthNames : list string :=
  [ "محرم"; "صفر"; "ربیع‌الاول"; "ربیع‌الثانی"; "جمادی‌الاول"; "جمادی‌الثانی";
    "رجب"; "شعبان"; "رمضان"; "شوال"; "ذیقعده"; "ذیحجه" ]%string.

(** [names[i]] for an integer index: the element, or [undefined]. *)
Definition arrayAt (names : list string) (i : Z) : option string :=
  if i <? 0 then None else nth_error names (Z.to_nat i).

(** What a template literal prints for an array element. *)
Definition templateText (v : option string) : string :=
  match v with
  | Some s => s
  | None => "undefined"%string
  end.

(** [formatJalali], from [d.getFullYear()], [d.getMonth()] and
    [d.getDate()] of the [Date] that it builds from the ISO string: the
    call of [gregorianToJalali] and the template
    [`${jd} ${jalaliMonthNames[jm - 1]} ${jy}`]. *)
Definition formatJalali (fullYear month date : Z) : option string :=
  match gregorianToJalali fullYear (month + 1) date with
  | Some (jy, jm, jd) =>
      Some (decimal jd ++ " " ++ templateText (arrayAt jalaliMonthNames (jm - 1))
            ++ " " ++ decimal jy)%string
  | None => None
  end.

(** ** The date picker

    [handleChange] of the component [JalaliDatePicker] and the options of
    its day and year selectors. *)

Module JalaliDatePicker.

(** The day that [handleChange] keeps, [validD] after its three tests. *)
Definition validD (newY newM newD : Z) : Z :=
  let validD := newD in
  let validD := if (newM <=? 6) && (newD >? 31) then 31 else validD in
  let validD := if (newM >? 6) && (newD >? 30) then 30 else validD in
  if (newM =? 12) && (newD >? 29) then
    let isLeap := jsrem ((newY + 38) * 31) 128 <=? 30 in
    if isLeap then 30 else 29
  else validD.

(** [handleChange], up to the triple [gy, gm, gd] from which it builds the
    date [new Date(gy, gm - 1, gd)] that it reports. *)
Definition handleChange (newY newM newD : Z) : Z * Z * Z :=
  jalaliToGregorian newY newM (validD newY newM newD).

Definition days : list Z := map (fun i => i + 1) (Zrange 0 31).

Definition currentYear : Z := 1404.

Definition years : list Z := map (fun i => currentYear - 5 + i) (Zrange 0 20).

End JalaliDatePicker.

(** ** The month view

    The month shown by the component [JalaliCalendar], its two navigation
    handlers and the week day it gives to the cells of its grid. *)

Module JalaliCalendar.

Record currentJalali : Type := { jy : Z; jm : Z; jd : Z }.

Definition handlePrevMonth (c : currentJalali) : currentJalali :=
  if jm c =? 1 then {| jy := jy c - 1; jm := 12; jd := jd c |}
  else {| jy := jy c; jm := jm c - 1; jd := jd c |}.

Definition handleNextMonth (c : currentJalali) : currentJalali :=
  if jm c =? 12 then {| jy := jy c + 1; jm := 1; jd := jd c |}
  else {| jy := jy c; jm := jm c + 1; jd := jd c |}.

(** [Array.from({length: daysInMonth}, (_, i) => i + 1)]. *)
Definition days (c : currentJalali) : list Z :=
  map (fun i => i + 1) (Zrange 0 (Z.to_nat (getJalaliDaysInMonth (jy c) (jm c)))).

(** [(startDayOffset + index) % 7], the week day of the cell at [index]. *)
Definition dayOfWeekIndex (startDayOffset index : Z) : Z :=
  jsrem (startDayOffset + index) 7.

(** A [Date] as the view reads it: [getFullYear()], [getMonth()] (0-11)
    and [getDate()], in local time. *)
Record localDate : Type := { fullYear : Z; month : Z; date : Z }.

(** The test of the filters of [getDayEvents] and [getDayTasks]: the
    Jalali date of the item is the day [day] of the month shown. *)
Definition onDay (c : currentJalali) (day : Z) (d : localDate) : bool :=
  match gregorianToJalali (fullYear d) (month d + 1) (date d) with
  | Some (tj, tm, td) => (tj =? jy c) && (tm =? jm c) && (td =? day)
  | None => false
  end.

(** [getDayTasks], on the due dates of the tasks. *)
Definition getDayTasks (c : currentJalali) (tasks : list localDate) (day : Z)
  : list localDate :=
  List.filter (onDay c day) tasks.

End JalaliCalendar.

(** ** The day after a date *)

(** The Gregorian date that follows a date. *)
Definition nextGregorian (gy gm gd : Z) : Z * Z * Z :=
  if gd <? daysInGregorianMonth gy gm then (gy, gm, gd + 1)
  else if gm <? 12 then (gy, gm + 1, 1)
  else (gy + 1, 1, 1).

(** The date that follows a date in the calendar of the converters. *)
Definition nextJalali (jy jm jd : Z) : Z * Z * Z :=
  if jd <? jalaliMonthLength jy jm then (jy, jm, jd + 1)
  else if jm <? 12 then (jy, jm + 1, 1)
  else (jy + 1, 1, 1).

(** The second Hijri date is the day after the first: the next day of the
    same month, or the first day of the next month after a 29th or a 30th,
    the month after the twelfth being the first of the next year. *)
Definition hijriFollows (a b : float * float * float) : bool :=
  let '(y1, m1, d1) := a in
  let '(y2, m2, d2) := b in
  ((y2 =? y1) && (m2 =? m1) && (d2 =? d1 + 1))%float
  || ((d2 =? 1) && ((d1 =? 29) || (d1 =? 30))
      && (((y2 =? y1) && (m2 =? m1 + 1))
          || ((y2 =? y1 + 1) && (m2 =? 1) && (m1 =? 12))))%float.

(** ** The Julian Day Number as a day count *)

(** The days from 1 January of the year 0 to a Gregorian date. *)
Definition gregorianDayNumber (gy gm gd : Z) : Z :=
  yearStart gy + daysBeforeMonth (InLeapYear gy) (gm - 1) + gd - 1.

(** The Julian Day Number of 1 January of the year 0 of the Gregorian
    calendar, as [gregorianToJdn] counts. *)
Definition jdnOfYearZero : Z := 1721060.

(** From a Julian Day Number to the next, the Hijri date moves to the
    next day; the numbers are calibrated as [gregorianToHijri] does. *)
Definition jdnToHijriStep (n : Z) : bool :=
  hijriFollows (jdnToHijri (num n + CALIBRATION_OFFSET)%float)
               (jdnToHijri (num (n + 1) + CALIBRATION_OFFSET)%float).

(** The check run on a date: [gregorianToJdn] gives the number [n], and
    the Hijri date moves by a day from [n] to [n + 1]. *)
Definition jdnCheck (y m d : float) (n : Z) : bool :=
  Leibniz.eqb (gregorianToJdn y m d) (num n) && jdnToHijriStep n.

(** The check on every valid date of the years [lo] to [hi], [n] being
    the day number of the date plus [jdnOfYearZero] (the year and the
    month are counted once for all their dates). *)
Definition forallJdn (lo hi : Z) : bool :=
  forallRange lo hi (fun gy =>
    let start := yearStart gy + jdnOfYearZero - 1 in
    let leap := InLeapYear gy in
    let y := num gy in
    forallRange 1 12 (fun gm =>
      let base := start + daysBeforeMonth leap (gm - 1) in
      let m := num gm in
      forallRange 1 (daysInGregorianMonth gy gm) (fun gd =>
        jdnCheck y m (num gd) (base + gd)))).

(** ** The keys of the tables *)

(** A text contains the separator of the keys. *)
Fixpoint containsDash (s : string) : bool :=
  match s with
  | EmptyString => false
  | String c s' => Ascii.eqb c "-" || containsDash s'
  end.

(** The Jalali dates of the solar table, as month and day. *)
Definition solarHolidayDates : list (Z * Z) :=
  [(1, 1); (1, 2); (1, 3); (1, 4); (1, 12); (1, 13); (3, 14); (3, 15); (11, 22); (12, 29)].

(** ** Tactics *)

(** Euclidean division of a non-negative number by a positive constant,
    with the quotient and the remainder named. *)
Ltac euclid a b q r :=
  let Hb := fresh "Hb" in
  let He := fresh "He" in
  pose proof (Z.mod_pos_bound a b ltac:(lia)) as Hb;
  pose proof (Z.div_mod a b ltac:(lia)) as He;
  set (q := a / b) in *; set (r := a mod b) in *;
  clearbody q r.

(** A concrete date is valid: the bounds by evaluation. *)
Ltac valid_date :=
  unfold validGregorian; repeat split; vm_compute; discriminate.

(** * Properties *)

(** ** Ranges *)

Lemma Zrange_In lo n z : lo <= z < lo + Z.of_nat n -> In z (Zrange lo n).
Proof.
  intros Hz. unfold Zrange. apply in_map_iff.
  exists (Z.to_nat (z - lo)). split; [lia|]. apply in_seq. lia.
Qed.

Lemma In_Zrange lo n z : In z (Zrange lo n) -> lo <= z < lo + Z.of_nat n.
Proof.
  unfold Zrange. rewrite in_map_iff. intros (i & <- & Hi).
  apply in_seq in Hi. lia.
Qed.

Lemma forallRange_spec lo hi p :
  forallRange lo hi p = true -> forall z, lo <= z <= hi -> p z = true.
Proof.
  unfold forallRange. rewrite forallb_forall. intros H z Hz.
  apply H, Zrange_In. lia.
Qed.

Lemma forallGregorianNumbers_spec lo hi p :
  forallGregorianNumbers lo hi p = true ->
  forall gy gm gd, lo <= gy <= hi -> validGregorian gy gm gd ->
    p (num gy) (num gm) (num gd) = true.
Proof.
  intros H gy gm gd Hy [Hm Hd].
  pose proof (forallRange_spec _ _ _ H gy Hy) as H1. cbv beta zeta in H1.
  pose proof (forallRange_spec _ _ _ H1 gm Hm) as H2. cbv beta zeta in H2.
  exact (forallRange_spec _ _ _ H2 gd Hd).
Qed.

Lemma existsb_numbers x (l : list Z) :
  existsb (PrimFloat.eqb x) (map num l) = true <->
  exists z, In z l /\ numberIs x z = true.
Proof.
  rewrite existsb_exists. split.
  - intros (y & Hin & E). apply in_map_iff in Hin. destruct Hin as (z & <- & Hz).
    exists z. split; assumption.
  - intros (z & Hz & E). exists (num z). split; [now apply in_map | exact E].
Qed.

Lemma monthNumbers_eq : monthNumbers = map num (Zrange 1 12).
Proof. vm_compute. reflexivity. Qed.

Lemma dayNumbers_eq : dayNumbers = map num (Zrange 1 30).
Proof. vm_compute. reflexivity. Qed.

Lemma validHijrib_spec t : validHijrib t = true <-> validHijri t.
Proof.
  destruct t as [[iy im] id]. unfold validHijrib, validHijri.
  rewrite monthNumbers_eq, dayNumbers_eq, andb_true_iff, !existsb_numbers. split.
  - intros [(m & Hm & Em) (d & Hd & Ed)].
    apply In_Zrange in Hm. apply In_Zrange in Hd.
    exists m, d. repeat split; try assumption; lia.
  - intros (m & d & Em & Ed & Hm & Hd).
    split; [exists m | exists d]; (split; [apply Zrange_In; simpl; lia | assumption]).
Qed.

(** ** The integer operations *)

Lemma toInt32_wrap z :
  toInt32 z = (z + 2147483648) mod 4294967296 - 2147483648.
Proof.
  unfold toInt32.
  destruct ((-2147483648 <=? z) && (z <? 2147483648)) eqn:E; [|reflexivity].
  apply andb_true_iff in E. destruct E as [E1 E2].
  rewrite Z.mod_small; lia.
Qed.

Lemma toInt32_range z : -2147483648 <= toInt32 z < 2147483648.
Proof.
  rewrite toInt32_wrap.
  pose proof (Z.mod_pos_bound (z + 2147483648) 4294967296). lia.
Qed.

Lemma div_small a b :
  -2147483648 <= Z.quot a b < 2147483648 -> div a b = Z.quot a b.
Proof.
  intros H. unfold div, toInt32.
  destruct ((-2147483648 <=? a ÷ b) && (a ÷ b <? 2147483648)) eqn:E; [reflexivity|].
  apply andb_false_iff in E. lia.
Qed.

Lemma div_nonneg a b : 0 <= a < 2147483648 -> 0 < b -> div a b = a / b.
Proof.
  intros Ha Hb. rewrite div_small; rewrite Z.quot_div_nonneg by lia; [reflexivity|].
  assert (0 <= a / b) by (apply Z.div_pos; lia).
  assert (a / b <= a) by (apply Z.div_le_upper_bound; nia).
  lia.
Qed.

Lemma jsrem_nonneg a b : 0 <= a -> 0 < b -> jsrem a b = a mod b.
Proof. intros. unfold jsrem. apply Z.rem_mod_nonneg; lia. Qed.

(** [div] and [%] on a non-negative 31-bit number are the Euclidean
    quotient and remainder. *)
Ltac js_div a b :=
  rewrite ?(div_nonneg a b), ?(jsrem_nonneg a b) by lia.

(** [Math_floor] agrees with the floor read off the mantissa, on numbers
    of either sign, with and without a fractional part, at the ties, next
    to 2^52 and 2^53, and on the special values. *)
Lemma Math_floor_samples :
  forallb (fun x => Leibniz.eqb (Math_floor x) (floorOfMantissa x))
    [ 0; -0; 0.5; -0.5; 1; -1; 1.5; -1.5; 2.5; -2.5; 0.1335; -0.1335;
      428.4014; 739954.5; -739954.5; 2461065.75; 67.36; -354.2331666666667;
      4503599627370495.5; -4503599627370495.5; 4503599627370496;
      4503599627370497; -4503599627370497; 9007199254740992;
      -9007199254740993; 5e-324; -5e-324; 1e300; -1e300;
      infinity; neg_infinity; nan ]%float = true.
Proof. vm_compute. reflexivity. Qed.

(** The same on the sixteenths between -125 and 125 and on 4001 multiples
    of 365.25, of 30.6001 and of 10631/30. *)
Lemma Math_floor_dense :
  forallRange (-2000) 2000 (fun k =>
    let x := num k in
    forallb (fun y => Leibniz.eqb (Math_floor y) (floorOfMantissa y))
      [ x / 16; x * 365.25; x * 30.6001; x * (10631 / 30) + 8.01 / 60 ]%float) = true.
Proof. vm_cast_no_check (eq_refl true). Qed.

(** ** The converters are their two steps *)

Lemma gregorianToJalaliCore_steps gy gm gd off :
  0 <= gm - 1 -> nth_error g_d_m (Z.to_nat (gm - 1)) = Some off ->
  gregorianToJalaliCore gy gm gd = Some (jalaliOfDays (gregorianDays gy gm gd off)).
Proof.
  intros Hm Hoff. unfold gregorianToJalaliCore.
  destruct (Z.ltb_spec (gm - 1) 0); [lia|]. rewrite Hoff.
  unfold jalaliOfDays, gregorianDays. cbv zeta.
  repeat match goal with
  | |- context [if ?c then _ else _] => destruct c
  end; reflexivity.
Qed.

Lemma jalaliToGregorianCore_steps jy jm jd :
  jalaliToGregorianCore jy jm jd = gregorianOfDays (jalaliDays jy jm jd).
Proof. reflexivity. Qed.

(** ** The Jalali steps are inverse to each other *)

(** The date cut out of a day count encodes back to the count, which
    [jalaliDays] takes from an origin 355667 days later. *)
Lemma jalaliDays_of_days d :
  0 <= d < 2147483648 ->
  let '(jy, jm, jd) := jalaliOfDays d in
  jalaliDays jy jm jd = d - 355667 /\ 1 <= jm <= 12 /\ 1 <= jd <= 31.
Proof.
  intros Hd. unfold jalaliOfDays.
  js_div d 12053. euclid d 12053 q33 r33.
  js_div r33 1461. euclid r33 1461 q4 r4.
  assert (Hyear : forall q1 r1 : Z,
    0 <= q1 <= 3 -> 0 <= r1 <= 365 -> (q1 = 0 -> r1 = r4) ->
    (0 < q1 -> r4 = 365 * q1 + r1 + 1) ->
    let '(jy, jm, jd) :=
      if r1 <? 186
      then (-1595 + 33 * q33 + 4 * q4 + q1, 1 + div r1 31, 1 + jsrem r1 31)
      else (-1595 + 33 * q33 + 4 * q4 + q1, 7 + div (r1 - 186) 30, 1 + jsrem (r1 - 186) 30) in
    jalaliDays jy jm jd = d - 355667 /\ 1 <= jm <= 12 /\ 1 <= jd <= 31).
  { intros q1 r1 Hq1 Hr1 H0 H1.
    assert (Hy : forall jm jd,
       jd + (if jm <? 7 then (jm - 1) * 31 else (jm - 7) * 30 + 186) = r1 + 1 ->
       jalaliDays (-1595 + 33 * q33 + 4 * q4 + q1) jm jd = d - 355667).
    { intros jm jd E. unfold jalaliDays. rewrite <- Z.add_assoc, E.
      replace (-1595 + 33 * q33 + 4 * q4 + q1 + 1595) with (33 * q33 + (4 * q4 + q1)) by lia.
      js_div (33 * q33 + (4 * q4 + q1)) 33.
      euclid (33 * q33 + (4 * q4 + q1)) 33 qa ra.
      js_div (ra + 3) 4. euclid (ra + 3) 4 qb rb. lia. }
    destruct (Z.ltb_spec r1 186) as [Hm|Hm].
    - js_div r1 31. euclid r1 31 qm rm.
      split; [|lia]. apply Hy. destruct (Z.ltb_spec (1 + qm) 7); lia.
    - js_div (r1 - 186) 30. euclid (r1 - 186) 30 qm rm.
      split; [|lia]. apply Hy. destruct (Z.ltb_spec (7 + qm) 7); lia. }
  destruct (Z.gtb_spec r4 365) as [Hg|Hg].
  - js_div (r4 - 1) 365. euclid (r4 - 1) 365 q1 r1.
    apply (Hyear q1 r1); lia.
  - replace (-1595 + 33 * q33 + 4 * q4) with (-1595 + 33 * q33 + 4 * q4 + 0) by lia.
    apply (Hyear 0 r4); lia.
Qed.

(** The year of the converters has 365 days, and 366 when [jalaliLeap]. *)
Lemma jalaliDays_next_year jy :
  -1595 <= jy <= 5000000 ->
  jalaliDays (jy + 1) 1 1 = jalaliDays jy 1 1 + 365 + (if jalaliLeap jy then 1 else 0).
Proof.
  intros Hy. unfold jalaliDays, jalaliLeap.
  replace (jy + 1 + 1595) with (jy + 1595 + 1) by lia.
  set (Y := jy + 1595). assert (HY : 0 <= Y <= 5001595) by (subst Y; lia).
  clearbody Y. change (1 <? 7) with true. cbv iota.
  js_div Y 33. js_div (Y + 1) 33.
  euclid Y 33 A r. euclid (Y + 1) 33 A' r'.
  js_div (r + 3) 4. js_div (r' + 3) 4.
  euclid (r + 3) 4 l x. euclid (r' + 3) 4 l' x'. euclid r 4 c e.
  destruct (Z.eqb_spec e 0), (Z.eqb_spec r 32); simpl; lia.
Qed.

(** A date of the calendar of the converters is cut back out of its count. *)
Lemma jalaliOfDays_jalaliDays jy jm jd :
  -1595 <= jy <= 5000000 -> 1 <= jm <= 12 -> 1 <= jd <= jalaliMonthLength jy jm ->
  jalaliOfDays (jalaliDays jy jm jd + 355667) = (jy, jm, jd).
Proof.
  intros Hy Hm Hd. unfold jalaliMonthLength, jalaliLeap in Hd.
  unfold jalaliDays.
  set (Y := jy + 1595) in *. assert (HY : 0 <= Y <= 5001595) by (subst Y; lia).
  js_div Y 33. euclid Y 33 A r.
  js_div (r + 3) 4. euclid (r + 3) 4 l x.
  pose proof (Z.mod_pos_bound r 4 ltac:(lia)) as Be.
  pose proof (Z.div_mod r 4 ltac:(lia)) as Ee.
  set (c := r / 4) in *. set (e := r mod 4) in *. clearbody c e.
  assert (Hjd : 1 <= jd /\ (jm <= 6 -> jd <= 31) /\ (7 <= jm -> jd <= 30) /\
                (jm = 12 -> e <> 0 \/ r = 32 -> jd <= 29)).
  { destruct (Z.leb_spec jm 6); [lia|]. destruct (Z.leb_spec jm 11); [lia|].
    destruct (Z.eqb_spec e 0), (Z.eqb_spec r 32); simpl in Hd; lia. }
  clear Hd.
  set (doy := jd + (if jm <? 7 then (jm - 1) * 31 else (jm - 7) * 30 + 186) - 1).
  assert (Hdoy : 0 <= doy <= 365 /\ (e <> 0 \/ r = 32 -> doy <= 364)).
  { subst doy. destruct (Z.ltb_spec jm 7); lia. }
  assert (Hsplit : (if doy <? 186
                    then (jy, 1 + div doy 31, 1 + jsrem doy 31)
                    else (jy, 7 + div (doy - 186) 30, 1 + jsrem (doy - 186) 30))
                   = (jy, jm, jd)).
  { destruct (Z.ltb_spec doy 186).
    - js_div doy 31. euclid doy 31 qm rm. subst doy.
      destruct (Z.ltb_spec jm 7); repeat f_equal; lia.
    - js_div (doy - 186) 30. euclid (doy - 186) 30 qm rm. subst doy.
      destruct (Z.ltb_spec jm 7); repeat f_equal; lia. }
  replace (-355668 + 365 * Y + A * 8 + l + jd +
           (if jm <? 7 then (jm - 1) * 31 else (jm - 7) * 30 + 186) + 355667)
    with (12053 * A + 1461 * c + (365 * e + (l - c) + doy)) by (subst doy; lia).
  destruct Hdoy as [Hdoy Hcommon]. clearbody doy.
  set (D := 12053 * A + 1461 * c + (365 * e + (l - c) + doy)).
  unfold jalaliOfDays.
  assert (HD : 0 <= D < 2147483648) by (subst D; lia).
  js_div D 12053. euclid D 12053 q33 r33.
  assert (Hq : q33 = A /\ r33 = 1461 * c + (365 * e + (l - c) + doy)) by (subst D; lia).
  destruct Hq as [-> ->].
  js_div (1461 * c + (365 * e + (l - c) + doy)) 1461.
  euclid (1461 * c + (365 * e + (l - c) + doy)) 1461 q4 r4.
  assert (Hq : q4 = c /\ r4 = 365 * e + (l - c) + doy) by lia.
  destruct Hq as [-> ->].
  destruct (Z.gtb_spec (365 * e + (l - c) + doy) 365).
  - js_div (365 * e + (l - c) + doy - 1) 365.
    euclid (365 * e + (l - c) + doy - 1) 365 q1 r1.
    assert (Hq : q1 = e /\ r1 = doy) by lia. destruct Hq as [-> ->].
    replace (-1595 + 33 * A + 4 * c + e) with jy by (subst Y; lia).
    exact Hsplit.
  - replace (-1595 + 33 * A + 4 * c) with jy by (subst Y; lia).
    replace (365 * e + (l - c) + doy) with doy by lia.
    exact Hsplit.
Qed.

(** ** The Gregorian steps are inverse to each other *)

Lemma gregorianLeap_InLeapYear gy : 0 <= gy -> gregorianLeap gy = InLeapYear gy.
Proof.
  intros H. unfold gregorianLeap, InLeapYear. now rewrite !jsrem_nonneg by lia.
Qed.

Lemma leapCount_succ gy : 0 <= gy -> leapCount (gy + 1) = leapCount gy + leapDay gy.
Proof.
  intros Hy. unfold leapCount, leapDay, gregorianLeap.
  rewrite !jsrem_nonneg by lia.
  euclid (gy + 3) 4 l4 x4. euclid (gy + 99) 100 l100 x100. euclid (gy + 399) 400 l400 x400.
  euclid (gy + 1 + 3) 4 k4 y4. euclid (gy + 1 + 99) 100 k100 y100.
  euclid (gy + 1 + 399) 400 k400 y400.
  euclid gy 4 d4 m4. euclid gy 100 d100 m100. euclid gy 400 d400 m400.
  destruct (Z.eqb_spec m4 0), (Z.eqb_spec m100 0), (Z.eqb_spec m400 0); simpl; lia.
Qed.

(** The year of a day count: with [gy = 400 a + 100 b + 4 c + e], the
    quotients of [gregorianOfDays] are [a], [b], [c] and [e]. *)
Lemma gregorianOfDays_year gy T :
  0 <= gy <= 5000000 -> 0 <= T < 365 + leapDay gy ->
  gregorianOfDays (365 * gy + leapCount gy + T) =
  let '(gm, gd) := monthLoop (sal_a gy) 0 (T + 1) in (gy, gm, gd).
Proof.
  intros Hy HT. unfold leapDay, gregorianLeap in HT.
  rewrite !jsrem_nonneg in HT by lia.
  unfold leapCount.
  euclid (gy + 3) 4 l4 x4. euclid (gy + 99) 100 l100 x100. euclid (gy + 399) 400 l400 x400.
  pose proof (Z.mod_pos_bound gy 4 ltac:(lia)) as B4.
  pose proof (Z.div_mod gy 4 ltac:(lia)) as E4.
  pose proof (Z.mod_pos_bound gy 100 ltac:(lia)) as B100.
  pose proof (Z.div_mod gy 100 ltac:(lia)) as E100.
  pose proof (Z.mod_pos_bound gy 400 ltac:(lia)) as B400.
  pose proof (Z.div_mod gy 400 ltac:(lia)) as E400.
  set (m4 := gy mod 4) in *. set (m100 := gy mod 100) in *. set (m400 := gy mod 400) in *.
  set (d4 := gy / 4) in *. set (d100 := gy / 100) in *. set (d400 := gy / 400) in *.
  clearbody m4 m100 m400 d4 d100 d400.
  (* the position of the year in its century and in its block of four *)
  euclid m400 100 b r100. euclid r100 4 c e.
  assert (Hr100 : r100 = m100) by lia. assert (He4 : e = m4) by lia. subst r100 e.
  assert (HTle : T <= 365) by (destruct ((m4 =? 0) && negb (m100 =? 0) || (m400 =? 0)); lia).
  assert (Hleap : (m4 =? 0) && negb (m100 =? 0) || (m400 =? 0) = false -> T <= 364).
  { intros E. rewrite E in HT. lia. }
  assert (Hcommon : m4 <> 0 \/ (m100 = 0 /\ m400 <> 0) -> T <= 364).
  { intros Hc. apply Hleap.
    destruct (Z.eqb_spec m4 0), (Z.eqb_spec m100 0), (Z.eqb_spec m400 0); simpl; lia. }
  assert (HT0 : 0 <= T) by lia.
  clear Hleap HT.
  (* the last stage, on the days since the start of the block of four years *)
  assert (Hblock : forall gy0 X,
    gy0 = 400 * d400 + 100 * b ->
    (m4 = 0 -> X = 1461 * c + T) ->
    (m4 <> 0 -> X = 1461 * c + 365 * m4 + 1 + T) ->
    gregorianOfYearDays gy0 X =
    let '(gm, gd) := monthLoop (sal_a gy) 0 (T + 1) in (gy, gm, gd)).
  { intros gy0 X -> X0 X1. unfold gregorianOfYearDays.
    js_div X 1461. euclid X 1461 q4 r4.
    assert (Hq4 : q4 = c /\ (m4 = 0 -> r4 = T) /\ (m4 <> 0 -> r4 = 365 * m4 + 1 + T)).
    { destruct (Z.eq_dec m4 0); lia. }
    destruct Hq4 as (-> & R0 & R1).
    destruct (Z.gtb_spec r4 365) as [Hg|Hg].
    - js_div (r4 - 1) 365. euclid (r4 - 1) 365 q1 r1.
      assert (Hm4 : m4 <> 0) by lia.
      assert (Hq1 : q1 = m4 /\ r1 = T) by lia. destruct Hq1 as [-> ->].
      replace (400 * d400 + 100 * b + 4 * c + m4) with gy by lia. reflexivity.
    - assert (Hm4 : m4 = 0) by lia.
      replace (400 * d400 + 100 * b + 4 * c) with gy by lia.
      rewrite R0 by assumption. reflexivity. }
  unfold gregorianOfDays.
  set (N := 365 * gy + (l4 - l100 + l400) + T).
  assert (HN : 0 <= N < 2147483648) by (subst N; lia).
  js_div N 146097. euclid N 146097 q r.
  assert (Hq : q = d400 /\ r = N - 146097 * d400).
  { subst N. destruct (Z.eq_dec m4 0), (Z.eq_dec m100 0), (Z.eq_dec m400 0); lia. }
  destruct Hq as [-> Hr].
  destruct (Z.gtb_spec r 36524) as [Hg|Hg].
  - cbv zeta. js_div (r - 1) 36524. euclid (r - 1) 36524 q100 r100.
    assert (Hcent : 1 <= b).
    { subst N. destruct (Z.eq_dec m4 0), (Z.eq_dec m100 0), (Z.eq_dec m400 0); lia. }
    assert (Hq : q100 = b /\
                 (m100 = 0 -> r100 = T) /\
                 (m100 <> 0 -> m4 = 0 -> r100 = 1461 * c + T - 1) /\
                 (m4 <> 0 -> r100 = 1461 * c + 365 * m4 + T)).
    { subst N. destruct (Z.eq_dec m4 0), (Z.eq_dec m100 0), (Z.eq_dec m400 0); lia. }
    destruct Hq as (-> & Ra & Rb & Rc).
    apply Hblock; [reflexivity| |].
    + intros E0. destruct (Z.geb_spec r100 365); destruct (Z.eq_dec m100 0); lia.
    + intros E1. destruct (Z.geb_spec r100 365); lia.
  - apply Hblock.
    + subst N. destruct (Z.eq_dec m4 0), (Z.eq_dec m100 0), (Z.eq_dec m400 0); lia.
    + subst N. destruct (Z.eq_dec m4 0), (Z.eq_dec m100 0), (Z.eq_dec m400 0); lia.
    + subst N. destruct (Z.eq_dec m4 0), (Z.eq_dec m100 0), (Z.eq_dec m400 0); lia.
Qed.

Lemma gregorianDays_dayOfYear gy gm gd off :
  0 <= gy <= 5000000 -> 0 <= gd <= 31 -> 0 <= off <= 334 ->
  gregorianDays gy gm gd off - 355667 = 365 * gy + leapCount gy + dayOfYear gy gm gd off.
Proof.
  intros Hy Hd Hoff. unfold gregorianDays, dayOfYear.
  destruct (Z.gtb_spec gm 2).
  - js_div (gy + 1 + 3) 4. js_div (gy + 1 + 99) 100. js_div (gy + 1 + 399) 400.
    pose proof (leapCount_succ gy ltac:(lia)) as E. unfold leapCount in *. lia.
  - js_div (gy + 3) 4. js_div (gy + 99) 100. js_div (gy + 399) 400.
    unfold leapCount. lia.
Qed.

Lemma monthLoop_dayOfYear gy gm gd off :
  0 <= gy -> validGregorian gy gm gd ->
  nth_error g_d_m (Z.to_nat (gm - 1)) = Some off ->
  monthLoop (sal_a gy) 0 (dayOfYear gy gm gd off + 1) = (gm, gd) /\
  0 <= dayOfYear gy gm gd off < 365 + leapDay gy /\ 0 <= off <= 334.
Proof.
  intros Hy [Hm Hd] Hoff.
  unfold daysInGregorianMonth in Hd. rewrite <- gregorianLeap_InLeapYear in Hd by lia.
  unfold dayOfYear, leapDay, sal_a.
  assert (Hcases : gm = 1 \/ gm = 2 \/ gm = 3 \/ gm = 4 \/ gm = 5 \/ gm = 6 \/
                   gm = 7 \/ gm = 8 \/ gm = 9 \/ gm = 10 \/ gm = 11 \/ gm = 12) by lia.
  repeat (destruct Hcases as [-> | Hcases]); try subst gm;
    simpl in Hoff; injection Hoff as <-; simpl in Hd;
    match goal with
    | |- context [?x >? ?y] => destruct (Z.gtb_spec x y); try lia
    end;
    destruct (gregorianLeap gy); cbn [monthLoop];
    repeat match goal with
    | |- context [if ?x <=? ?y then _ else _] => destruct (Z.leb_spec x y); try lia
    end;
    (split; [f_equal; lia | lia]).
Qed.

Lemma yearStart_0 : yearStart 0 = 0.
Proof. reflexivity. Qed.

Lemma yearStart_succ gy : 0 <= gy -> yearStart (gy + 1) = yearStart gy + 365 + leapDay gy.
Proof. intros H. unfold yearStart. rewrite leapCount_succ by assumption. lia. Qed.

Lemma year_of_day K N :
  0 <= K -> 0 <= N < yearStart K ->
  exists gy, 0 <= gy < K /\ yearStart gy <= N < yearStart (gy + 1).
Proof.
  intros HK. revert N. pattern K. apply natlike_ind; [| |exact HK].
  - intros N HN. rewrite yearStart_0 in HN. lia.
  - intros k Hk IH N HN. unfold Z.succ in *.
    destruct (Z.lt_ge_cases N (yearStart k)) as [Hlt|Hge].
    + destruct (IH N) as (gy & Hgy & Hb); [lia|]. exists gy. split; [lia|exact Hb].
    + exists k. split; lia.
Qed.

Lemma yearStart_lower gy : 0 <= gy -> 365 * gy <= yearStart gy.
Proof.
  intros H. unfold yearStart, leapCount.
  euclid (gy + 3) 4 l4 x4. euclid (gy + 99) 100 l100 x100. euclid (gy + 399) 400 l400 x400.
  lia.
Qed.

Lemma monthLoop_inverse gy T :
  0 <= T < 365 + leapDay gy ->
  let '(gm, gd) := monthLoop (sal_a gy) 0 (T + 1) in
  exists off, 1 <= gm <= 12 /\ 1 <= gd <= 31 /\
    nth_error g_d_m (Z.to_nat (gm - 1)) = Some off /\
    dayOfYear gy gm gd off = T.
Proof.
  unfold dayOfYear, leapDay, sal_a. intros HT.
  destruct (gregorianLeap gy); cbn [monthLoop];
    repeat match goal with
    | |- context [if ?x <=? ?y then _ else _] => destruct (Z.leb_spec x y); try lia
    end;
    eexists; (split; [lia|]); (split; [lia|]); (split; [reflexivity|]);
    match goal with
    | |- context [?x >? ?y] => destruct (Z.gtb_spec x y); lia
    end.
Qed.

Lemma gregorianDays_of_days N :
  0 <= N <= 1800000000 ->
  let '(gy, gm, gd) := gregorianOfDays N in
  exists off, 1 <= gm <= 12 /\
    nth_error g_d_m (Z.to_nat (gm - 1)) = Some off /\
    gregorianDays gy gm gd off = N + 355667.
Proof.
  intros HN.
  destruct (year_of_day 5000000 N) as (gy & Hgy & Hb); [lia| |].
  { pose proof (yearStart_lower 5000000 ltac:(lia)). lia. }
  rewrite yearStart_succ in Hb by lia.
  set (T := N - yearStart gy).
  replace N with (365 * gy + leapCount gy + T) by (subst T; unfold yearStart; lia).
  assert (HT : 0 <= T < 365 + leapDay gy) by (subst T; lia).
  clearbody T.
  rewrite gregorianOfDays_year by lia.
  pose proof (monthLoop_inverse gy T HT) as HM.
  destruct (monthLoop (sal_a gy) 0 (T + 1)) as [gm gd].
  destruct HM as (off & Hm & Hd & Hoff & Hdoy).
  exists off. split; [exact Hm|]. split; [exact Hoff|].
  assert (Ho : 0 <= off <= 334).
  { assert (Hin : In off g_d_m) by (eapply nth_error_In; exact Hoff).
    simpl in Hin. lia. }
  pose proof (gregorianDays_dayOfYear gy gm gd off ltac:(lia) ltac:(lia) Ho). lia.
Qed.

(** ** Round trips between the Gregorian and the Jalali calendar *)

(** C2. For every valid Gregorian date of the years 0 to 5000000, which
    contain the years 1921-2121, [jalaliToGregorian] applied to the result
    of [gregorianToJalali] gives the date back. *)
Theorem C2_gregorian_round_trip (gy gm gd : Z) :
  0 <= gy <= 5000000 -> validGregorian gy gm gd ->
  exists jy jm jd,
    gregorianToJalali gy gm gd = Some (jy, jm, jd) /\
    jalaliToGregorian jy jm jd = (gy, gm, gd).
Proof.
  intros Hy Hv. pose proof Hv as [Hm Hd].
  destruct (nth_error g_d_m (Z.to_nat (gm - 1))) as [off|] eqn:Hoff.
  2:{ apply nth_error_None in Hoff. simpl in Hoff. lia. }
  destruct (monthLoop_dayOfYear gy gm gd off ltac:(lia) Hv Hoff) as (Hloop & Hdoy & Ho).
  assert (Hd31 : 0 <= gd <= 31).
  { unfold daysInGregorianMonth in Hd.
    destruct (gm =? 2), (InLeapYear gy), ((gm =? 4) || (gm =? 6) || (gm =? 9) || (gm =? 11)); lia. }
  pose proof (gregorianDays_dayOfYear gy gm gd off Hy Hd31 Ho) as HD.
  assert (HL : 0 <= leapCount gy <= 5000000).
  { unfold leapCount. euclid (gy + 3) 4 l4 x4. euclid (gy + 99) 100 l100 x100.
    euclid (gy + 399) 400 l400 x400. lia. }
  assert (Hdoy' : 0 <= dayOfYear gy gm gd off <= 365).
  { unfold leapDay in Hdoy. destruct (gregorianLeap gy); lia. }
  pose proof (jalaliDays_of_days (gregorianDays gy gm gd off) ltac:(lia)) as HJ.
  destruct (jalaliOfDays (gregorianDays gy gm gd off)) as [[jy jm] jd] eqn:EJ.
  destruct HJ as (HJ & _).
  exists jy, jm, jd. split.
  - unfold gregorianToJalali. rewrite (gregorianToJalaliCore_steps gy gm gd off) by (assumption || lia).
    now rewrite EJ.
  - unfold jalaliToGregorian. rewrite jalaliToGregorianCore_steps, HJ, HD.
    rewrite gregorianOfDays_year by assumption. now rewrite Hloop.
Qed.

Lemma C2_gregorian_round_trip_witness :
  0 <= 2024 <= 5000000 /\ validGregorian 2024 2 29 /\
  gregorianToJalali 2024 2 29 = Some (1402, 12, 10) /\
  exists jy jm jd,
    gregorianToJalali 2024 2 29 = Some (jy, jm, jd) /\
    jalaliToGregorian jy jm jd = (2024, 2, 29).
Proof.
  assert (Hy : 0 <= 2024 <= 5000000) by lia.
  assert (Hv : validGregorian 2024 2 29) by valid_date.
  split; [exact Hy|]. split; [exact Hv|]. split; [reflexivity|].
  exact (C2_gregorian_round_trip 2024 2 29 Hy Hv).
Defined.

(** The round trip from the Jalali side, on the dates of the calendar
    that the converters implement. *)
Theorem jalali_round_trip jy jm jd :
  1 <= jy <= 4900000 -> 1 <= jm <= 12 -> 1 <= jd <= jalaliMonthLength jy jm ->
  let '(gy, gm, gd) := jalaliToGregorian jy jm jd in
  gregorianToJalali gy gm gd = Some (jy, jm, jd).
Proof.
  intros Hy Hm Hd.
  pose proof (jalaliOfDays_jalaliDays jy jm jd ltac:(lia) Hm Hd) as HB.
  assert (HN : 0 <= jalaliDays jy jm jd <= 1800000000).
  { unfold jalaliMonthLength in Hd. unfold jalaliDays.
    js_div (jy + 1595) 33. euclid (jy + 1595) 33 A r.
    js_div (r + 3) 4. euclid (r + 3) 4 l x.
    destruct (Z.ltb_spec jm 7), (Z.leb_spec jm 6); try lia.
    destruct (Z.leb_spec jm 11); [lia|]. destruct (jalaliLeap jy); lia. }
  pose proof (gregorianDays_of_days _ HN) as HA.
  unfold jalaliToGregorian. rewrite jalaliToGregorianCore_steps.
  destruct (gregorianOfDays (jalaliDays jy jm jd)) as [[gy gm] gd].
  destruct HA as (off & Hgm & Hoff & HD).
  unfold gregorianToJalali. rewrite (gregorianToJalaliCore_steps gy gm gd off) by (assumption || lia).
  now rewrite HD, HB.
Qed.

(** In 1300-1500 [getJalaliDaysInMonth] and the converters disagree on
    the length of Esfand in six years: the converters have 1403, 1436 and
    1469 as leap years, [getJalaliDaysInMonth] the years after them. *)
Lemma esfandMismatches_1300_1500 :
  esfandMismatches 1300 1500 = [1403; 1404; 1436; 1437; 1469; 1470].
Proof. vm_compute. reflexivity. Qed.

Lemma esfandMismatches_spec lo hi jy :
  lo <= jy <= hi -> ~ In jy (esfandMismatches lo hi) ->
  getJalaliDaysInMonth jy 12 = jalaliMonthLength jy 12.
Proof.
  intros Hy Hn. unfold esfandMismatches in Hn. rewrite filter_In in Hn.
  destruct (Z.eqb_spec (getJalaliDaysInMonth jy 12) (jalaliMonthLength jy 12)) as [E|E];
    [exact E|].
  exfalso. apply Hn. split; [apply Zrange_In; lia | reflexivity].
Qed.

(** Away from 30 Esfand of 1404, 1437 and 1470, the round trip holds on
    every date of the years 1300-1500 that [getJalaliDaysInMonth] admits. *)
Theorem jalali_round_trip_1300_1500 jy jm jd :
  1300 <= jy <= 1500 -> 1 <= jm <= 12 -> 1 <= jd <= getJalaliDaysInMonth jy jm ->
  ~ (jm = 12 /\ jd = 30 /\ In jy [1404; 1437; 1470]) ->
  let '(gy, gm, gd) := jalaliToGregorian jy jm jd in
  gregorianToJalali gy gm gd = Some (jy, jm, jd).
Proof.
  intros Hy Hm Hd Hex. apply jalali_round_trip; [lia | exact Hm |].
  split; [lia|].
  destruct (Z.eq_dec jm 12) as [->|Hm12].
  - destruct (in_dec Z.eq_dec jy (esfandMismatches 1300 1500)) as [Hin|Hout].
    + rewrite esfandMismatches_1300_1500 in Hin.
      assert (Hcmp : getJalaliDaysInMonth jy 12 <= jalaliMonthLength jy 12 \/
                     (In jy [1404; 1437; 1470] /\ jalaliMonthLength jy 12 = 29)).
      { simpl in Hin. destruct Hin as [<-|[<-|[<-|[<-|[<-|[<-|[]]]]]]];
          first [ left; apply Z.leb_le; reflexivity
                | right; split; [simpl; tauto | reflexivity] ]. }
      destruct Hcmp as [Hle|[Hbad E]]; [lia|]. rewrite E.
      assert (jd <> 30) by (intros ->; apply Hex; auto).
      assert (getJalaliDaysInMonth jy 12 <= 30)
        by (unfold getJalaliDaysInMonth; simpl; destruct (_ <=? _); lia).
      lia.
    + rewrite <- (esfandMismatches_spec 1300 1500) by assumption. lia.
  - unfold getJalaliDaysInMonth in Hd. unfold jalaliMonthLength.
    destruct (Z.leb_spec jm 6); [lia|]. destruct (Z.leb_spec jm 11); lia.
Qed.

(** C1, at the date where it breaks.  [getJalaliDaysInMonth] gives Esfand
    1404 thirty days, so (1404, 12, 30) is a date it admits.  The
    converters give the year 365 days: 30 Esfand 1404 and 1 Farvardin 1405
    are both sent to 21 March 2026, the day after 29 Esfand, and coming
    back from it gives (1405, 1, 1). *)
Theorem C1_esfand_30_of_1404 :
  1 <= 30 <= getJalaliDaysInMonth 1404 12 /\
  jalaliToGregorian 1404 12 29 = (2026, 3, 20) /\
  jalaliToGregorian 1404 12 30 = (2026, 3, 21) /\
  jalaliToGregorian 1405 1 1 = (2026, 3, 21) /\
  gregorianToJalali 2026 3 21 = Some (1405, 1, 1).
Proof. repeat split; vm_compute; congruence. Qed.

(** ** The holiday tables *)

Lemma list_to_map_value_nonempty (l : list (string * string)) k v :
  forallb (fun kv => negb (String.eqb (snd kv) "")) l = true ->
  (list_to_map l : gmap string string) !! k = Some v ->
  String.eqb v "" = false.
Proof.
  intros Hall Hk. apply elem_of_list_to_map_2 in Hk.
  apply list_elem_of_In in Hk.
  rewrite forallb_forall in Hall. specialize (Hall _ Hk). simpl in Hall.
  now apply negb_true_iff in Hall.
Qed.

(** Every name in the two tables is a non-empty string, so an entry that
    is present passes the [if]. *)
Lemma truthy_solar k : truthy (SOLAR_HOLIDAYS !! k) = true <-> is_Some (SOLAR_HOLIDAYS !! k).
Proof.
  destruct (SOLAR_HOLIDAYS !! k) as [v|] eqn:E; simpl.
  - split; [eauto|]. intros _.
    unfold SOLAR_HOLIDAYS in E.
    apply list_to_map_value_nonempty in E; [now rewrite E | reflexivity].
  - split; [discriminate|]. intros [? ?]. discriminate.
Qed.

Lemma truthy_lunar k : truthy (LUNAR_HOLIDAYS !! k) = true <-> is_Some (LUNAR_HOLIDAYS !! k).
Proof.
  destruct (LUNAR_HOLIDAYS !! k) as [v|] eqn:E; simpl.
  - split; [eauto|]. intros _.
    unfold LUNAR_HOLIDAYS in E.
    apply list_to_map_value_nonempty in E; [now rewrite E | reflexivity].
  - split; [discriminate|]. intros [? ?]. discriminate.
Qed.

Lemma truthy_solarEntry jm jd :
  truthy (solarEntry jm jd) = true <-> is_Some (solarEntry jm jd).
Proof. apply truthy_solar. Qed.

Lemma truthy_lunarEntry jy jm jd :
  truthy (lunarEntry jy jm jd) = true <-> is_Some (lunarEntry jy jm jd).
Proof.
  unfold lunarEntry. destruct (getLunarDate jy jm jd) as [[ly lm] ld].
  destruct (numberKey lm ld) as [k|]; simpl.
  - apply truthy_lunar.
  - split; [discriminate|]. intros [? ?]. discriminate.
Qed.

(** ** Fixed points and single dates *)

(** C7. 1 Farvardin 1400 is 21 March 2021, in both directions:
    [gregorianToJalali(2021, 3, 21)] is [(1400, 1, 1)] and
    [jalaliToGregorian(1400, 1, 1)] is [(2021, 3, 21)]. *)
Theorem C7_farvardin_1400 :
  gregorianToJalali 2021 3 21 = Some (1400, 1, 1) /\
  jalaliToGregorian 1400 1 1 = (2021, 3, 21).
Proof. split; reflexivity. Qed.

(** C9. Gregorian 2024-03-20 is the Jalali date (1403, 1, 1); its
    [getDay()] is 3 (Wednesday, Sunday being 0), the table [1,2,3,4,5,6,0]
    has 4 at index 3, and [getDayOfWeekJalali(1403, 1, 1)] is 4. *)
Theorem C9_weekday_1403_1_1 :
  gregorianToJalali 2024 3 20 = Some (1403, 1, 1) /\
  jalaliToGregorian 1403 1 1 = (2024, 3, 20) /\
  Date_getDay 2024 (3 - 1) 20 = Some 3 /\
  nth_error [1; 2; 3; 4; 5; 6; 0] 3 = Some 4 /\
  getDayOfWeekJalali 1403 1 1 = Some 4.
Proof. repeat split; vm_compute; reflexivity. Qed.

(** C10. The calibration reference: 1 Bahman 1404 is Gregorian 21 January
    2026 and [getLunarDate(1404, 11, 1)] is 1 Shaban 1447, month 8 and
    day 1. *)
Theorem C10_calibration_reference :
  jalaliToGregorian 1404 11 1 = (2026, 1, 21) /\
  intsOfNumbers (getLunarDate 1404 11 1) = Some (1447, 8, 1).
Proof. split; vm_compute; reflexivity. Qed.

(** ** Days in a Jalali month *)



(** ** Holidays *)


(** C4, with the literal the code has.  [getHolidayName] is the solar
    table's name when the key [jm-jd] is in the solar table; otherwise the
    lunar table's name when the key of the month and day of
    [getLunarDate(jy, jm, jd)] is in the lunar table; otherwise the Persian
    word for Friday when the week day is 6; otherwise null.  A Friday that
    is a solar holiday gets the solar name. *)
Theorem C4_getHolidayName_precedence (jy jm jd dayOfWeek : Z) :
  (forall name, solarEntry jm jd = Some name ->
     getHolidayName jy jm jd dayOfWeek = Some name) /\
  (forall name, solarEntry jm jd = None -> lunarEntry jy jm jd = Some name ->
     getHolidayName jy jm jd dayOfWeek = Some name) /\
  (solarEntry jm jd = None -> lunarEntry jy jm jd = None -> dayOfWeek = 6 ->
     getHolidayName jy jm jd dayOfWeek = Some "جمعه"%string) /\
  (solarEntry jm jd = None -> lunarEntry jy jm jd = None -> dayOfWeek <> 6 ->
     getHolidayName jy jm jd dayOfWeek = None).
Proof.
  pose proof (truthy_solarEntry jm jd) as HS.
  pose proof (truthy_lunarEntry jy jm jd) as HL.
  assert (E : getHolidayName jy jm jd dayOfWeek =
              if truthy (solarEntry jm jd) then solarEntry jm jd
              else if truthy (lunarEntry jy jm jd) then lunarEntry jy jm jd
              else if dayOfWeek =? 6 then Some "جمعه"%string else None).
  { unfold getHolidayName, lunarEntry, solarEntry. cbv zeta.
    destruct (getLunarDate jy jm jd) as [[ly lm] ld]. reflexivity. }
  rewrite E. clear E.
  repeat split.
  - intros name E. rewrite E in *.
    replace (truthy (Some name)) with true by (symmetry; apply HS; eauto).
    reflexivity.
  - intros name ES EL. rewrite ES, EL in *.
    replace (truthy (Some name)) with true by (symmetry; apply HL; eauto).
    reflexivity.
  - intros ES EL ->. rewrite ES, EL. reflexivity.
  - intros ES EL Hd. rewrite ES, EL. simpl.
    destruct (Z.eqb_spec dayOfWeek 6); [contradiction | reflexivity].
Qed.

(** 3 Farvardin 1403 is a Friday and a solar holiday (Nowruz): the name is
    the solar one. *)
Lemma C4_getHolidayName_precedence_witness :
  getDayOfWeekJalali 1403 1 3 = Some 6 /\
  solarEntry 1 3 = Some "عید نوروز"%string /\
  getHolidayName 1403 1 3 6 = Some "عید نوروز"%string.
Proof.
  split; [vm_compute; reflexivity|]. split; [vm_compute; reflexivity|].
  apply (proj1 (C4_getHolidayName_precedence 1403 1 3 6)).
  vm_compute. reflexivity.
Defined.

(** C4 as the specification words it fails on 10 Farvardin 1403, a Friday
    in neither table: the name returned is the Persian word, not the
    English one. *)
Lemma C4_friday_literal_counterexample :
  solarEntry 1 10 = None /\
  lunarEntry 1403 1 10 = None /\
  getHolidayName 1403 1 10 6 = Some "جمعه"%string /\
  getHolidayName 1403 1 10 6 <> Some "Friday"%string.
Proof.
  assert (E : getHolidayName 1403 1 10 6 = Some "جمعه"%string)
    by (vm_compute; reflexivity).
  split; [vm_compute; reflexivity|]. split; [vm_compute; reflexivity|].
  split; [exact E|]. rewrite E. discriminate.
Qed.

(** ** The Julian Day Number and the Hijri date *)

Lemma jdnRoundTrip_1583_3000 :
  forallGregorianNumbers 1583 3000 jdnRoundTrip = true.
Proof. vm_cast_no_check (eq_refl true). Qed.

Lemma hijriOfGregorianValid_1_3000 :
  forallGregorianNumbers 1 3000 hijriOfGregorianValid = true.
Proof. vm_cast_no_check (eq_refl true). Qed.

(** C8. For every valid Gregorian date of the years 1583-3000, the
    Julian Day Number computed by the first half of [gregorianToHijri]
    (without the calibration offset), fed to the inversion in its second
    half, gives the year, the month and the day back. *)
Theorem C8_jdn_round_trip (gy gm gd : Z) :
  1583 <= gy <= 3000 -> validGregorian gy gm gd ->
  let '(year, month, day) :=
    jdnToGregorian (gregorianToJdn (num gy) (num gm) (num gd)) in
  numberIs year gy = true /\ numberIs month gm = true /\ numberIs day gd = true.
Proof.
  intros Hy Hv.
  pose proof (forallGregorianNumbers_spec _ _ _ jdnRoundTrip_1583_3000 _ _ _ Hy Hv) as H.
  unfold jdnRoundTrip in H.
  destruct (jdnToGregorian _) as [[y m] d].
  rewrite !andb_true_iff in H. exact (conj (proj1 (proj1 H)) (conj (proj2 (proj1 H)) (proj2 H))).
Qed.

Lemma C8_jdn_round_trip_witness :
  1583 <= 2026 <= 3000 /\ validGregorian 2026 1 21 /\
  intOfNumber (gregorianToJdn (num 2026) (num 1) (num 21)) = Some 2461062 /\
  let '(year, month, day) :=
    jdnToGregorian (gregorianToJdn (num 2026) (num 1) (num 21)) in
  numberIs year 2026 = true /\ numberIs month 1 = true /\ numberIs day 21 = true.
Proof.
  assert (Hy : 1583 <= 2026 <= 3000) by lia.
  assert (Hv : validGregorian 2026 1 21) by valid_date.
  split; [exact Hy|]. split; [exact Hv|]. split; [vm_compute; reflexivity|].
  exact (C8_jdn_round_trip 2026 1 21 Hy Hv).
Defined.

(** The two clamps, for every Julian Day Number: the month returned is
    neither 13 nor 0. *)
Lemma jdnToHijri_month_clamped (jd : float) :
  let '(iy, im, id) := jdnToHijri jd in
  (im =? 13)%float = false /\ (im =? 0)%float = false.
Proof.
  unfold jdnToHijri. cbv zeta.
  match goal with
  | |- context [if (?m =? 13)%float then _ else _] =>
      generalize m; intros m0
  end.
  destruct (m0 =? 13)%float eqn:E13.
  - split; reflexivity.
  - destruct (m0 =? 0)%float eqn:E0; [split; reflexivity | split; assumption].
Qed.

(** The clamp of a computed month 0 leaves the day at 0: on 1 January of
    the year 10^34, where the day count has lost its low digits, the result
    is month 1, day 0. *)
Lemma gregorianToHijri_day_zero :
  let '(iy, im, id) := gregorianToHijri (num (10 ^ 34)) (num 1) (num 1) in
  intOfNumber im = Some 1 /\ intOfNumber id = Some 0.
Proof. vm_compute. split; reflexivity. Qed.




(** ** Day counts and years *)

Lemma yearStart_mono a b : 0 <= a <= b -> yearStart a <= yearStart b.
Proof.
  intros H. unfold yearStart, leapCount.
  euclid (a + 3) 4 a4 x4. euclid (a + 99) 100 a100 x100. euclid (a + 399) 400 a400 x400.
  euclid (b + 3) 4 b4 y4. euclid (b + 99) 100 b100 y100. euclid (b + 399) 400 b400 y400.
  lia.
Qed.

Lemma monthLoop_valid gy T :
  0 <= gy -> 0 <= T < 365 + leapDay gy ->
  let '(gm, gd) := monthLoop (sal_a gy) 0 (T + 1) in validGregorian gy gm gd.
Proof.
  intros Hy. unfold validGregorian, daysInGregorianMonth, leapDay, sal_a.
  rewrite <- gregorianLeap_InLeapYear by lia. intros HT.
  destruct (gregorianLeap gy); cbn [monthLoop];
    repeat match goal with
    | |- context [if ?x <=? ?y then _ else _] => destruct (Z.leb_spec x y); try lia
    end; simpl; lia.
Qed.

(** The date cut out of a day count: a valid date, whose count it is. *)
Lemma gregorianOfDays_spec N :
  0 <= N <= 1800000000 ->
  exists gy gm gd off,
    gregorianOfDays N = (gy, gm, gd) /\ 0 <= gy < 5000000 /\
    validGregorian gy gm gd /\
    nth_error g_d_m (Z.to_nat (gm - 1)) = Some off /\
    N = yearStart gy + dayOfYear gy gm gd off.
Proof.
  intros HN.
  destruct (year_of_day 5000000 N) as (gy & Hgy & Hb); [lia| |].
  { pose proof (yearStart_lower 5000000 ltac:(lia)). lia. }
  rewrite yearStart_succ in Hb by lia.
  set (T := N - yearStart gy).
  assert (HT : 0 <= T < 365 + leapDay gy) by (subst T; lia).
  assert (EN : N = 365 * gy + leapCount gy + T) by (subst T; unfold yearStart; lia).
  clearbody T.
  pose proof (gregorianOfDays_year gy T ltac:(lia) HT) as HG. rewrite <- EN in HG.
  pose proof (monthLoop_inverse gy T HT) as HM.
  pose proof (monthLoop_valid gy T ltac:(lia) HT) as HV.
  destruct (monthLoop (sal_a gy) 0 (T + 1)) as [gm gd].
  destruct HM as (off & Hm & Hd & Hoff & Hdoy).
  exists gy, gm, gd, off.
  split; [exact HG|]. split; [lia|]. split; [exact HV|]. split; [exact Hoff|].
  unfold yearStart. lia.
Qed.

(** The year of a day count lies between the years whose first days
    enclose the count. *)
Lemma gregorianOfDays_year_bounds N lo hi :
  0 <= lo <= hi -> yearStart lo <= N < yearStart (hi + 1) -> N <= 1800000000 ->
  exists gy gm gd off,
    gregorianOfDays N = (gy, gm, gd) /\ lo <= gy <= hi /\
    validGregorian gy gm gd /\
    nth_error g_d_m (Z.to_nat (gm - 1)) = Some off /\
    N = yearStart gy + dayOfYear gy gm gd off.
Proof.
  intros Hlo HN Hmax.
  assert (H0 : 0 <= yearStart lo).
  { pose proof (yearStart_lower lo ltac:(lia)). lia. }
  destruct (gregorianOfDays_spec N ltac:(lia)) as (gy & gm & gd & off & E & Hy & Hv & Hoff & EN).
  exists gy, gm, gd, off.
  split; [exact E|]. split; [|split; [exact Hv|split; [exact Hoff|exact EN]]].
  split.
  - destruct (Z.lt_ge_cases gy lo) as [Hlt|]; [|assumption]. exfalso.
    pose proof (yearStart_mono (gy + 1) lo ltac:(lia)) as Hmono.
    rewrite yearStart_succ in Hmono by lia.
    destruct (monthLoop_dayOfYear gy gm gd off ltac:(lia) Hv Hoff) as (_ & Hd & _). lia.
  - destruct (Z.lt_ge_cases hi gy) as [Hlt|]; [|lia]. exfalso.
    pose proof (yearStart_mono (hi + 1) gy ltac:(lia)) as Hmono.
    destruct (monthLoop_dayOfYear gy gm gd off ltac:(lia) Hv Hoff) as (_ & Hd & _). lia.
Qed.

(** The day count of a Jalali date, in closed form. *)
Lemma jalaliDays_bounds jy jm jd :
  1 <= jy <= 4900000 -> 1 <= jm <= 12 -> 0 <= jd <= 32 ->
  365 * jy + 226000 <= jalaliDays jy jm jd <= 366 * jy + 228000.
Proof.
  intros Hy Hm Hd. unfold jalaliDays.
  js_div (jy + 1595) 33. euclid (jy + 1595) 33 A r.
  js_div (r + 3) 4. euclid (r + 3) 4 l x.
  destruct (Z.ltb_spec jm 7); lia.
Qed.

(** ** The day after a date *)

(** The date after a valid date is a valid date, one day further. *)
Lemma nextGregorian_count gy gm gd off :
  0 <= gy -> validGregorian gy gm gd ->
  nth_error g_d_m (Z.to_nat (gm - 1)) = Some off ->
  let '(ny, nm, nd) := nextGregorian gy gm gd in
  validGregorian ny nm nd /\ gy <= ny <= gy + 1 /\
  exists off',
    nth_error g_d_m (Z.to_nat (nm - 1)) = Some off' /\
    yearStart ny + dayOfYear ny nm nd off' = yearStart gy + dayOfYear gy gm gd off + 1.
Proof.
  intros Hy [Hm Hd] Hoff.
  pose proof (yearStart_succ gy Hy) as HS.
  unfold nextGregorian, validGregorian, daysInGregorianMonth, dayOfYear in *.
  rewrite <- gregorianLeap_InLeapYear in * by lia.
  unfold leapDay in *.
  assert (Hcases : gm = 1 \/ gm = 2 \/ gm = 3 \/ gm = 4 \/ gm = 5 \/ gm = 6 \/
                   gm = 7 \/ gm = 8 \/ gm = 9 \/ gm = 10 \/ gm = 11 \/ gm = 12) by lia.
  repeat (destruct Hcases as [-> | Hcases]); try subst gm;
    simpl in Hoff; injection Hoff as <-; simpl in Hd; simpl;
    destruct (gregorianLeap gy) eqn:EL;
    match goal with
    | |- context [?x <? ?y] => destruct (Z.ltb_spec x y); try lia
    end;
    simpl; rewrite <- ?(gregorianLeap_InLeapYear gy), ?EL by lia;
    (split; [lia|]); (split; [lia|]); eexists; (split; [reflexivity|]); simpl; lia.
Qed.

Lemma gregorianOfDays_next N :
  0 <= N < 1800000000 ->
  gregorianOfDays (N + 1) =
  let '(gy, gm, gd) := gregorianOfDays N in nextGregorian gy gm gd.
Proof.
  intros HN.
  destruct (gregorianOfDays_spec N ltac:(lia)) as (gy & gm & gd & off & E & Hy & Hv & Hoff & EN).
  rewrite E.
  pose proof (nextGregorian_count gy gm gd off ltac:(lia) Hv Hoff) as HX.
  destruct (nextGregorian gy gm gd) as [[ny nm] nd].
  destruct HX as (Hv' & Hny & off' & Hoff' & EN').
  destruct (monthLoop_dayOfYear ny nm nd off' ltac:(lia) Hv' Hoff') as (Hloop & Hdoy & _).
  replace (N + 1) with (365 * ny + leapCount ny + dayOfYear ny nm nd off')
    by (unfold yearStart in *; lia).
  rewrite gregorianOfDays_year by lia. now rewrite Hloop.
Qed.

(** ** The week day of a day count *)

Lemma DayFromYear_yearStart y : DayFromYear y = yearStart y - 719528.
Proof.
  unfold DayFromYear, yearStart, leapCount.
  euclid (y - 1969) 4 a4 x4. euclid (y - 1901) 100 a100 x100. euclid (y - 1601) 400 a400 x400.
  euclid (y + 3) 4 b4 y4. euclid (y + 99) 100 b100 y100. euclid (y + 399) 400 b400 y400.
  lia.
Qed.

Lemma MakeDay_dayOfYear gy gm gd off :
  0 <= gy -> 1 <= gm <= 12 ->
  nth_error g_d_m (Z.to_nat (gm - 1)) = Some off ->
  MakeDay gy (gm - 1) gd = yearStart gy + dayOfYear gy gm gd off - 719528.
Proof.
  intros Hy Hm Hoff. unfold MakeDay, dayOfYear, leapDay.
  rewrite (Z.div_small (gm - 1) 12), (Z.mod_small (gm - 1) 12), Z.add_0_r by lia.
  rewrite DayFromYear_yearStart, <- gregorianLeap_InLeapYear by lia.
  assert (Hcases : gm = 1 \/ gm = 2 \/ gm = 3 \/ gm = 4 \/ gm = 5 \/ gm = 6 \/
                   gm = 7 \/ gm = 8 \/ gm = 9 \/ gm = 10 \/ gm = 11 \/ gm = 12) by lia.
  repeat (destruct Hcases as [-> | Hcases]); try subst gm;
    simpl in Hoff; injection Hoff as <-;
    destruct (gregorianLeap gy);
    match goal with
    | |- context [daysBeforeMonth ?b ?m] =>
        let v := eval vm_compute in (daysBeforeMonth b m) in
        change (daysBeforeMonth b m) with v
    end; simpl; lia.
Qed.

(** [getDayOfWeekJalali] is the day count modulo 7: the count of a
    Saturday is a multiple of 7. *)
Lemma getDayOfWeekJalali_days jy jm jd :
  36525 <= jalaliDays jy jm jd <= 100000000 ->
  getDayOfWeekJalali jy jm jd = Some (jalaliDays jy jm jd mod 7).
Proof.
  intros HN. unfold getDayOfWeekJalali, jalaliToGregorian.
  rewrite jalaliToGregorianCore_steps.
  set (N := jalaliDays jy jm jd) in *. clearbody N.
  destruct (gregorianOfDays_year_bounds N 100 4999999) as
    (gy & gm & gd & off & E & Hy & Hv & Hoff & EN);
    [lia | | lia |].
  { change (yearStart 100) with 36525.
    pose proof (yearStart_lower (4999999 + 1) ltac:(lia)). lia. }
  rewrite E. unfold Date_getDay.
  destruct (Z.leb_spec gy 99) as [|_]; [lia|]. rewrite andb_false_r.
  rewrite (MakeDay_dayOfYear gy gm gd off) by (lia || apply Hv || assumption).
  rewrite <- EN.
  destruct (Z.leb_spec (Z.abs (N - 719528)) 100000000) as [_|]; [|lia].
  euclid (N - 719528 + 4) 7 q k. euclid N 7 q' k'.
  assert (Hk : k = 0 \/ k = 1 \/ k = 2 \/ k = 3 \/ k = 4 \/ k = 5 \/ k = 6) by lia.
  destruct Hk as [->|[->|[->|[->|[->|[->| ->]]]]]]; simpl; f_equal; lia.
Qed.

(** ** Months of the calendar of the converters *)

Lemma jalaliMonthLength_bounds jy jm : 29 <= jalaliMonthLength jy jm <= 31.
Proof.
  unfold jalaliMonthLength. destruct (jm <=? 6), (jm <=? 11), (jalaliLeap jy); lia.
Qed.

(** A day past the end of a month is counted as a day of the next month. *)
Lemma jalaliDays_next_month jy jm k :
  -1595 <= jy <= 5000000 -> 1 <= jm <= 12 ->
  jalaliDays jy jm (jalaliMonthLength jy jm + k) =
  if jm =? 12 then jalaliDays (jy + 1) 1 k else jalaliDays jy (jm + 1) k.
Proof.
  intros Hy Hm. destruct (Z.eqb_spec jm 12) as [->|Hne].
  - pose proof (jalaliDays_next_year jy Hy) as HY.
    unfold jalaliMonthLength. change (12 <=? 6) with false. change (12 <=? 11) with false.
    cbv iota. unfold jalaliDays in *.
    change (1 <? 7) with true in *. change (12 <? 7) with false. cbv iota in *.
    destruct (jalaliLeap jy); lia.
  - unfold jalaliMonthLength, jalaliDays.
    destruct (Z.leb_spec jm 6), (Z.leb_spec jm 11), (Z.ltb_spec jm 7), (Z.ltb_spec (jm + 1) 7);
      lia.
Qed.

Lemma jalaliOfDays_year d :
  0 <= d < 2147483648 ->
  let '(jy, jm, jd) := jalaliOfDays d in
  -1595 <= jy /\ 365 * (jy + 1595) <= d.
Proof.
  intros Hd. unfold jalaliOfDays.
  js_div d 12053. euclid d 12053 q33 r33.
  js_div r33 1461. euclid r33 1461 q4 r4.
  destruct (Z.gtb_spec r4 365) as [Hg|Hg].
  - js_div (r4 - 1) 365. euclid (r4 - 1) 365 q1 r1.
    destruct (Z.ltb_spec r1 186); lia.
  - destruct (Z.ltb_spec r4 186); lia.
Qed.

(** 33 years have 12053 days. *)
Lemma jalaliDays_lower jy jm jd :
  0 <= jy + 1595 < 2147483648 -> 1 <= jm -> 0 <= jd ->
  12053 * (jy + 1595) - 256 <= 33 * (jalaliDays jy jm jd + 355668).
Proof.
  intros Hy Hm Hd. unfold jalaliDays.
  js_div (jy + 1595) 33. euclid (jy + 1595) 33 A r.
  js_div (r + 3) 4. euclid (r + 3) 4 l x.
  destruct (Z.ltb_spec jm 7); lia.
Qed.

(** The date cut out of a day count is a date of the calendar of the
    converters: the day is within the length of the month. *)
Lemma jalaliOfDays_valid d :
  0 <= d <= 1826000000 ->
  let '(jy, jm, jd) := jalaliOfDays d in
  jalaliDays jy jm jd = d - 355667 /\ -1595 <= jy <= 4999000 /\
  1 <= jm <= 12 /\ 1 <= jd <= jalaliMonthLength jy jm.
Proof.
  intros Hd.
  pose proof (jalaliDays_of_days d ltac:(lia)) as H1.
  pose proof (jalaliOfDays_year d ltac:(lia)) as H2.
  destruct (jalaliOfDays d) as [[jy jm] jd] eqn:E.
  destruct H1 as (HD & Hm & Hjd). destruct H2 as (Hlo & Hhi).
  pose proof (jalaliDays_lower jy jm jd ltac:(lia) ltac:(lia) ltac:(lia)) as HL.
  assert (Hy : -1595 <= jy <= 4999000) by lia.
  split; [exact HD|]. split; [exact Hy|]. split; [exact Hm|]. split; [lia|].
  destruct (Z.le_gt_cases jd (jalaliMonthLength jy jm)) as [|Hgt]; [assumption|exfalso].
  pose proof (jalaliDays_next_month jy jm (jd - jalaliMonthLength jy jm) ltac:(lia) Hm) as HN.
  replace (jalaliMonthLength jy jm + (jd - jalaliMonthLength jy jm)) with jd in HN by lia.
  assert (Hlen : 29 <= jalaliMonthLength jy jm <= 31).
  { unfold jalaliMonthLength. destruct (jm <=? 6), (jm <=? 11), (jalaliLeap jy); lia. }
  set (k := jd - jalaliMonthLength jy jm) in *.
  assert (Hk : 1 <= k <= 2) by (subst k; lia).
  assert (Hk' : forall y m, 1 <= k <= jalaliMonthLength y m).
  { intros y m. unfold jalaliMonthLength. destruct (m <=? 6), (m <=? 11), (jalaliLeap y); lia. }
  rewrite HD in HN.
  destruct (Z.eq_dec jm 12) as [->|Hne].
  - change (12 =? 12) with true in HN. cbv iota in HN.
    pose proof (jalaliOfDays_jalaliDays (jy + 1) 1 k ltac:(lia) ltac:(lia) (Hk' _ _)) as HB.
    rewrite <- HN in HB. replace (d - 355667 + 355667) with d in HB by lia.
    rewrite E in HB. injection HB as _ Hm' _. lia.
  - rewrite (proj2 (Z.eqb_neq jm 12) Hne) in HN.
    pose proof (jalaliOfDays_jalaliDays jy (jm + 1) k ltac:(lia) ltac:(lia) (Hk' _ _)) as HB.
    rewrite <- HN in HB. replace (d - 355667 + 355667) with d in HB by lia.
    rewrite E in HB. injection HB as Hm' _. lia.
Qed.

(** The count of a date of a valid Gregorian date, within the range of
    [jalaliOfDays_valid]. *)
Lemma gregorianDays_range gy gm gd off :
  0 <= gy <= 4990000 -> validGregorian gy gm gd ->
  nth_error g_d_m (Z.to_nat (gm - 1)) = Some off ->
  355667 <= gregorianDays gy gm gd off <= 1826000000.
Proof.
  intros Hy Hv Hoff. pose proof Hv as [Hm Hd].
  destruct (monthLoop_dayOfYear gy gm gd off ltac:(lia) Hv Hoff) as (_ & Hdoy & Ho).
  assert (Hd31 : 0 <= gd <= 31).
  { unfold daysInGregorianMonth in Hd.
    destruct (gm =? 2), (InLeapYear gy), ((gm =? 4) || (gm =? 6) || (gm =? 9) || (gm =? 11)); lia. }
  pose proof (gregorianDays_dayOfYear gy gm gd off ltac:(lia) Hd31 Ho) as HD.
  assert (HL : 0 <= leapCount gy <= 1250000).
  { unfold leapCount. euclid (gy + 3) 4 l4 x4. euclid (gy + 99) 100 l100 x100.
    euclid (gy + 399) 400 l400 x400. lia. }
  unfold leapDay in Hdoy. destruct (gregorianLeap gy); lia.
Qed.

(** Bounds by evaluation. *)
Ltac by_evaluation := repeat split; vm_compute; discriminate.

(** The Jalali year of a day of a Gregorian year: the year less 622 until
    Nowruz, less 621 from then on. *)
Lemma jalali_year_relation jy jm jd gy T :
  0 <= gy <= 1000000 -> -1595 <= jy <= 5000000 ->
  1 <= jm <= 12 -> 1 <= jd <= 31 -> 0 <= T <= 365 ->
  jalaliDays jy jm jd = yearStart gy + T ->
  gy - 622 <= jy <= gy - 621.
Proof.
  intros Hy Hj Hm Hd HT. unfold jalaliDays, yearStart, leapCount.
  js_div (jy + 1595) 33. euclid (jy + 1595) 33 A r.
  js_div (r + 3) 4. euclid (r + 3) 4 l x.
  euclid (gy + 3) 4 a4 x4. euclid (gy + 99) 100 a100 x100. euclid (gy + 399) 400 a400 x400.
  destruct (Z.ltb_spec jm 7); lia.
Qed.

(** ** The integer division of the converters *)



(** ** The two converters between the calendars *)

(** X2. On the dates of the calendar that the converters implement (a
    month in 1-12, a day within [jalaliMonthLength]) of the Jalali years
    1 to 4900000, [jalaliToGregorian] returns a valid Gregorian date, and
    [gregorianToJalali] applied to it gives the Jalali date back. *)
Theorem jalaliToGregorian_valid_and_inverted (jy jm jd : Z) :
  1 <= jy <= 4900000 -> 1 <= jm <= 12 -> 1 <= jd <= jalaliMonthLength jy jm ->
  let '(gy, gm, gd) := jalaliToGregorian jy jm jd in
  validGregorian gy gm gd /\ gregorianToJalali gy gm gd = Some (jy, jm, jd).
Proof.
  intros Hy Hm Hd.
  pose proof (jalali_round_trip jy jm jd Hy Hm Hd) as HR.
  assert (Hd32 : 0 <= jd <= 32).
  { unfold jalaliMonthLength in Hd. destruct (jm <=? 6), (jm <=? 11), (jalaliLeap jy); lia. }
  pose proof (jalaliDays_bounds jy jm jd Hy Hm Hd32) as HN.
  unfold jalaliToGregorian in *. rewrite jalaliToGregorianCore_steps in *.
  destruct (gregorianOfDays_spec (jalaliDays jy jm jd) ltac:(lia))
    as (gy & gm & gd & off & E & _ & Hv & _).
  rewrite E in *. split; assumption.
Qed.

Lemma jalaliToGregorian_valid_and_inverted_witness :
  1 <= 1403 <= 4900000 /\ 1 <= 12 <= 12 /\ 1 <= 30 <= jalaliMonthLength 1403 12 /\
  jalaliToGregorian 1403 12 30 = (2025, 3, 20) /\
  let '(gy, gm, gd) := jalaliToGregorian 1403 12 30 in
  validGregorian gy gm gd /\ gregorianToJalali gy gm gd = Some (1403, 12, 30).
Proof.
  assert (Hy : 1 <= 1403 <= 4900000) by lia.
  assert (Hm : 1 <= 12 <= 12) by lia.
  assert (Hd : 1 <= 30 <= jalaliMonthLength 1403 12) by by_evaluation.
  split; [exact Hy|]. split; [exact Hm|]. split; [exact Hd|]. split; [reflexivity|].
  exact (jalaliToGregorian_valid_and_inverted 1403 12 30 Hy Hm Hd).
Defined.

(** X3. For every valid Gregorian date of the years 0 to 1000000,
    [gregorianToJalali] returns a date of the calendar of the converters:
    the month is in 1-12, the day is within the length of that month, and
    the year is the Gregorian year less 622 or less 621. *)
Theorem gregorianToJalali_valid (gy gm gd : Z) :
  0 <= gy <= 1000000 -> validGregorian gy gm gd ->
  exists jy jm jd,
    gregorianToJalali gy gm gd = Some (jy, jm, jd) /\
    1 <= jm <= 12 /\ 1 <= jd <= jalaliMonthLength jy jm /\
    gy - 622 <= jy <= gy - 621.
Proof.
  intros Hy Hv. pose proof Hv as [Hm Hd].
  destruct (nth_error g_d_m (Z.to_nat (gm - 1))) as [off|] eqn:Hoff.
  2:{ apply nth_error_None in Hoff. simpl in Hoff. lia. }
  pose proof (gregorianDays_range gy gm gd off ltac:(lia) Hv Hoff) as HR.
  destruct (monthLoop_dayOfYear gy gm gd off ltac:(lia) Hv Hoff) as (_ & Hdoy & Ho).
  assert (Hd31 : 0 <= gd <= 31).
  { unfold daysInGregorianMonth in Hd.
    destruct (gm =? 2), (InLeapYear gy), ((gm =? 4) || (gm =? 6) || (gm =? 9) || (gm =? 11)); lia. }
  pose proof (gregorianDays_dayOfYear gy gm gd off ltac:(lia) Hd31 Ho) as HD.
  pose proof (jalaliOfDays_valid (gregorianDays gy gm gd off) ltac:(lia)) as HJ.
  unfold gregorianToJalali.
  rewrite (gregorianToJalaliCore_steps gy gm gd off) by (assumption || lia).
  destruct (jalaliOfDays (gregorianDays gy gm gd off)) as [[jy jm] jd].
  destruct HJ as (HJ & Hjy & Hjm & Hjd).
  exists jy, jm, jd. split; [reflexivity|]. split; [exact Hjm|]. split; [exact Hjd|].
  assert (Hjd31 : 1 <= jd <= 31).
  { unfold jalaliMonthLength in Hjd. destruct (jm <=? 6), (jm <=? 11), (jalaliLeap jy); lia. }
  apply (jalali_year_relation jy jm jd gy (dayOfYear gy gm gd off)); try lia.
  - unfold leapDay in Hdoy. destruct (gregorianLeap gy); lia.
  - unfold yearStart. lia.
Qed.

Lemma gregorianToJalali_valid_witness :
  0 <= 2025 <= 1000000 /\ validGregorian 2025 3 20 /\
  gregorianToJalali 2025 3 20 = Some (1403, 12, 30) /\
  exists jy jm jd,
    gregorianToJalali 2025 3 20 = Some (jy, jm, jd) /\
    1 <= jm <= 12 /\ 1 <= jd <= jalaliMonthLength jy jm /\
    2025 - 622 <= jy <= 2025 - 621.
Proof.
  assert (Hy : 0 <= 2025 <= 1000000) by lia.
  assert (Hv : validGregorian 2025 3 20) by valid_date.
  split; [exact Hy|]. split; [exact Hv|]. split; [reflexivity|].
  exact (gregorianToJalali_valid 2025 3 20 Hy Hv).
Defined.

(** X4. [formatJalali] on the local year, month (0-11) and day of a valid
    date of the years 0 to 1000000: the text is the day, one of the twelve
    names of [jalaliMonthNames] and the year of [gregorianToJalali],
    separated by spaces; the name looked up is never [undefined]. *)
Theorem formatJalali_month_name (fullYear month date : Z) :
  0 <= fullYear <= 1000000 -> validGregorian fullYear (month + 1) date ->
  exists jy jm jd name,
    gregorianToJalali fullYear (month + 1) date = Some (jy, jm, jd) /\
    nth_error jalaliMonthNames (Z.to_nat (jm - 1)) = Some name /\
    formatJalali fullYear month date =
      Some (decimal jd ++ " " ++ name ++ " " ++ decimal jy)%string.
Proof.
  intros Hy Hv. pose proof Hv as [Hm Hd].
  destruct (nth_error g_d_m (Z.to_nat (month + 1 - 1))) as [off|] eqn:Hoff.
  2:{ apply nth_error_None in Hoff. simpl in Hoff. lia. }
  pose proof (gregorianDays_range fullYear (month + 1) date off ltac:(lia) Hv Hoff) as HR.
  pose proof (jalaliOfDays_valid (gregorianDays fullYear (month + 1) date off) ltac:(lia)) as HJ.
  unfold formatJalali, gregorianToJalali.
  rewrite (gregorianToJalaliCore_steps fullYear (month + 1) date off) by (assumption || lia).
  destruct (jalaliOfDays (gregorianDays fullYear (month + 1) date off)) as [[jy jm] jd].
  destruct HJ as (_ & _ & Hjm & _).
  destruct (nth_error jalaliMonthNames (Z.to_nat (jm - 1))) as [name|] eqn:Hname.
  2:{ apply nth_error_None in Hname. simpl in Hname. lia. }
  exists jy, jm, jd, name. split; [reflexivity|]. split; [exact Hname|].
  unfold arrayAt. destruct (Z.ltb_spec (jm - 1) 0); [lia|]. now rewrite Hname.
Qed.

Lemma formatJalali_month_name_witness :
  0 <= 2025 <= 1000000 /\ validGregorian 2025 (2 + 1) 20 /\
  formatJalali 2025 2 20 = Some "30 اسفند 1403"%string /\
  exists jy jm jd name,
    gregorianToJalali 2025 (2 + 1) 20 = Some (jy, jm, jd) /\
    nth_error jalaliMonthNames (Z.to_nat (jm - 1)) = Some name /\
    formatJalali 2025 2 20 =
      Some (decimal jd ++ " " ++ name ++ " " ++ decimal jy)%string.
Proof.
  assert (Hy : 0 <= 2025 <= 1000000) by lia.
  assert (Hv : validGregorian 2025 (2 + 1) 20) by valid_date.
  split; [exact Hy|]. split; [exact Hv|]. split; [vm_compute; reflexivity|].
  exact (formatJalali_month_name 2025 2 20 Hy Hv).
Defined.

(** X5. For a Jalali year in 1 to 4900000, a month in 1-12 and any day
    from 1 to 31, also one past the end of the month, [jalaliToGregorian]
    returns a valid Gregorian date: the month loop never ends on month 0
    or 13. *)
Theorem jalaliToGregorian_valid (jy jm jd : Z) :
  1 <= jy <= 4900000 -> 1 <= jm <= 12 -> 1 <= jd <= 31 ->
  let '(gy, gm, gd) := jalaliToGregorian jy jm jd in
  validGregorian gy gm gd.
Proof.
  intros Hy Hm Hd.
  pose proof (jalaliDays_bounds jy jm jd Hy Hm ltac:(lia)) as HN.
  unfold jalaliToGregorian. rewrite jalaliToGregorianCore_steps.
  destruct (gregorianOfDays_spec (jalaliDays jy jm jd) ltac:(lia))
    as (gy & gm & gd & off & E & _ & Hv & _).
  now rewrite E.
Qed.

Lemma jalaliToGregorian_valid_witness :
  1 <= 1404 <= 4900000 /\ 1 <= 12 <= 12 /\ 1 <= 31 <= 31 /\
  jalaliToGregorian 1404 12 31 = (2026, 3, 22) /\
  let '(gy, gm, gd) := jalaliToGregorian 1404 12 31 in
  validGregorian gy gm gd.
Proof.
  assert (Hy : 1 <= 1404 <= 4900000) by lia.
  assert (Hm : 1 <= 12 <= 12) by lia.
  assert (Hd : 1 <= 31 <= 31) by lia.
  split; [exact Hy|]. split; [exact Hm|]. split; [exact Hd|]. split; [reflexivity|].
  exact (jalaliToGregorian_valid 1404 12 31 Hy Hm Hd).
Defined.

(** X6. Adding one to the day given to [jalaliToGregorian] moves the
    Gregorian date it returns to the next calendar day, for a Jalali year
    in 1 to 4900000, a month in 1-12 and a day from 0 to 31. *)
Theorem jalaliToGregorian_next_day (jy jm jd : Z) :
  1 <= jy <= 4900000 -> 1 <= jm <= 12 -> 0 <= jd <= 31 ->
  jalaliToGregorian jy jm (jd + 1) =
  let '(gy, gm, gd) := jalaliToGregorian jy jm jd in nextGregorian gy gm gd.
Proof.
  intros Hy Hm Hd.
  pose proof (jalaliDays_bounds jy jm jd Hy Hm ltac:(lia)) as HN.
  unfold jalaliToGregorian. rewrite !jalaliToGregorianCore_steps.
  replace (jalaliDays jy jm (jd + 1)) with (jalaliDays jy jm jd + 1)
    by (unfold jalaliDays; lia).
  apply gregorianOfDays_next. lia.
Qed.

Lemma jalaliToGregorian_next_day_witness :
  1 <= 1403 <= 4900000 /\ 1 <= 10 <= 12 /\ 0 <= 11 <= 31 /\
  jalaliToGregorian 1403 10 11 = (2024, 12, 31) /\
  jalaliToGregorian 1403 10 (11 + 1) = (2025, 1, 1) /\
  jalaliToGregorian 1403 10 (11 + 1) =
  let '(gy, gm, gd) := jalaliToGregorian 1403 10 11 in nextGregorian gy gm gd.
Proof.
  assert (Hy : 1 <= 1403 <= 4900000) by lia.
  assert (Hm : 1 <= 10 <= 12) by lia.
  assert (Hd : 0 <= 11 <= 31) by lia.
  split; [exact Hy|]. split; [exact Hm|]. split; [exact Hd|].
  split; [reflexivity|]. split; [reflexivity|].
  exact (jalaliToGregorian_next_day 1403 10 11 Hy Hm Hd).
Defined.

(** ** The Jalali date, day after day *)

Lemma jalaliOfDays_next d :
  0 <= d <= 1826000000 ->
  jalaliOfDays (d + 1) = let '(jy, jm, jd) := jalaliOfDays d in nextJalali jy jm jd.
Proof.
  intros Hd.
  pose proof (jalaliOfDays_valid d ltac:(lia)) as HV.
  destruct (jalaliOfDays d) as [[jy jm] jd].
  destruct HV as (HD & Hy & Hm & Hjd).
  pose proof (jalaliMonthLength_bounds jy jm) as Hb.
  unfold nextJalali.
  destruct (Z.ltb_spec jd (jalaliMonthLength jy jm)) as [Hlt|Hge].
  - rewrite <- (jalaliOfDays_jalaliDays jy jm (jd + 1)) by lia.
    f_equal. unfold jalaliDays in *. lia.
  - assert (Hjd' : jd = jalaliMonthLength jy jm) by lia.
    pose proof (jalaliDays_next_month jy jm 1 ltac:(lia) Hm) as HN.
    rewrite <- Hjd' in HN.
    assert (Hone : forall y m, 1 <= 1 <= jalaliMonthLength y m).
    { intros y m. pose proof (jalaliMonthLength_bounds y m). lia. }
    assert (HD1 : jalaliDays jy jm (jd + 1) = d + 1 - 355667)
      by (unfold jalaliDays in *; lia).
    rewrite HD1 in HN.
    destruct (Z.ltb_spec jm 12) as [H12|H12].
    + rewrite (proj2 (Z.eqb_neq jm 12)) in HN by lia.
      rewrite <- (jalaliOfDays_jalaliDays jy (jm + 1) 1) by (lia || apply Hone).
      f_equal. lia.
    + assert (jm = 12) by lia. subst jm. change (12 =? 12) with true in HN. cbv iota in HN.
      rewrite <- (jalaliOfDays_jalaliDays (jy + 1) 1 1) by (lia || apply Hone).
      f_equal. lia.
Qed.

(** X7. For every valid Gregorian date of the years 0 to 1000000, the
    Jalali date that [gregorianToJalali] gives the next calendar day is
    the date after the one it gives the date, in the calendar of the
    converters: no Jalali day is skipped or given to two days. *)
Theorem gregorianToJalali_next_day (gy gm gd : Z) :
  0 <= gy <= 1000000 -> validGregorian gy gm gd ->
  let '(ny, nm, nd) := nextGregorian gy gm gd in
  exists jy jm jd,
    gregorianToJalali gy gm gd = Some (jy, jm, jd) /\
    gregorianToJalali ny nm nd = Some (nextJalali jy jm jd).
Proof.
  intros Hy Hv. pose proof Hv as [Hm Hd].
  destruct (nth_error g_d_m (Z.to_nat (gm - 1))) as [off|] eqn:Hoff.
  2:{ apply nth_error_None in Hoff. simpl in Hoff. lia. }
  pose proof (nextGregorian_count gy gm gd off ltac:(lia) Hv Hoff) as HX.
  destruct (nextGregorian gy gm gd) as [[ny nm] nd].
  destruct HX as (Hv' & Hny & off' & Hoff' & EN).
  pose proof (gregorianDays_range gy gm gd off ltac:(lia) Hv Hoff) as HR.
  assert (Hd31 : forall y m d, validGregorian y m d -> 0 <= d <= 31).
  { intros y m d [_ Hdd]. unfold daysInGregorianMonth in Hdd.
    destruct (m =? 2), (InLeapYear y), ((m =? 4) || (m =? 6) || (m =? 9) || (m =? 11)); lia. }
  destruct (monthLoop_dayOfYear gy gm gd off ltac:(lia) Hv Hoff) as (_ & _ & Ho).
  destruct (monthLoop_dayOfYear ny nm nd off' ltac:(lia) Hv' Hoff') as (_ & _ & Ho').
  pose proof (gregorianDays_dayOfYear gy gm gd off ltac:(lia) (Hd31 _ _ _ Hv) Ho) as HD.
  pose proof (gregorianDays_dayOfYear ny nm nd off' ltac:(lia) (Hd31 _ _ _ Hv') Ho') as HD'.
  assert (E1 : gregorianDays ny nm nd off' = gregorianDays gy gm gd off + 1)
    by (unfold yearStart in EN; lia).
  pose proof Hv' as [Hm' _].
  unfold gregorianToJalali.
  rewrite (gregorianToJalaliCore_steps gy gm gd off) by (assumption || lia).
  rewrite (gregorianToJalaliCore_steps ny nm nd off') by (assumption || lia).
  rewrite E1, jalaliOfDays_next by lia.
  destruct (jalaliOfDays (gregorianDays gy gm gd off)) as [[jy jm] jd].
  exists jy, jm, jd. split; reflexivity.
Qed.

Lemma gregorianToJalali_next_day_witness :
  0 <= 2026 <= 1000000 /\ validGregorian 2026 3 20 /\
  nextGregorian 2026 3 20 = (2026, 3, 21) /\
  gregorianToJalali 2026 3 20 = Some (1404, 12, 29) /\
  nextJalali 1404 12 29 = (1405, 1, 1) /\
  let '(ny, nm, nd) := nextGregorian 2026 3 20 in
  exists jy jm jd,
    gregorianToJalali 2026 3 20 = Some (jy, jm, jd) /\
    gregorianToJalali ny nm nd = Some (nextJalali jy jm jd).
Proof.
  assert (Hy : 0 <= 2026 <= 1000000) by lia.
  assert (Hv : validGregorian 2026 3 20) by valid_date.
  split; [exact Hy|]. split; [exact Hv|].
  split; [reflexivity|]. split; [reflexivity|]. split; [reflexivity|].
  exact (gregorianToJalali_next_day 2026 3 20 Hy Hv).
Defined.

(** ** The month view *)



(** X9. On a month in 1-12, [handlePrevMonth] and [handleNextMonth] undo
    each other, and both leave the month in 1-12. *)
Theorem prev_and_next_month_inverse (c : JalaliCalendar.currentJalali) :
  1 <= JalaliCalendar.jm c <= 12 ->
  JalaliCalendar.handlePrevMonth (JalaliCalendar.handleNextMonth c) = c /\
  JalaliCalendar.handleNextMonth (JalaliCalendar.handlePrevMonth c) = c /\
  1 <= JalaliCalendar.jm (JalaliCalendar.handleNextMonth c) <= 12 /\
  1 <= JalaliCalendar.jm (JalaliCalendar.handlePrevMonth c) <= 12.
Proof.
  destruct c as [y m d]. simpl. intros Hm.
  unfold JalaliCalendar.handlePrevMonth, JalaliCalendar.handleNextMonth. simpl.
  assert (Hc : m = 1 \/ m = 12 \/ 1 < m < 12) by lia.
  destruct Hc as [->|[->|Hc]].
  - cbn. repeat split; try lia. f_equal; lia.
  - cbn. repeat split; try lia. f_equal; lia.
  - rewrite (proj2 (Z.eqb_neq m 12)), (proj2 (Z.eqb_neq m 1)) by lia.
    cbn [JalaliCalendar.jy JalaliCalendar.jm JalaliCalendar.jd].
    rewrite (proj2 (Z.eqb_neq (m + 1) 1)), (proj2 (Z.eqb_neq (m - 1) 12)) by lia.
    repeat split; try lia; f_equal; lia.
Qed.

Lemma prev_and_next_month_inverse_witness :
  let c := {| JalaliCalendar.jy := 1404; JalaliCalendar.jm := 12; JalaliCalendar.jd := 7 |} in
  1 <= JalaliCalendar.jm c <= 12 /\
  JalaliCalendar.handleNextMonth c =
    {| JalaliCalendar.jy := 1405; JalaliCalendar.jm := 1; JalaliCalendar.jd := 7 |} /\
  JalaliCalendar.handlePrevMonth (JalaliCalendar.handleNextMonth c) = c /\
  JalaliCalendar.handleNextMonth (JalaliCalendar.handlePrevMonth c) = c /\
  1 <= JalaliCalendar.jm (JalaliCalendar.handleNextMonth c) <= 12 /\
  1 <= JalaliCalendar.jm (JalaliCalendar.handlePrevMonth c) <= 12.
Proof.
  assert (Hm : 1 <= 12 <= 12) by lia.
  split; [exact Hm|]. split; [reflexivity|].
  exact (prev_and_next_month_inverse
           {| JalaliCalendar.jy := 1404; JalaliCalendar.jm := 12; JalaliCalendar.jd := 7 |} Hm).
Defined.

Lemma nth_error_days c (index : nat) day :
  nth_error (JalaliCalendar.days c) index = Some day ->
  day = Z.of_nat index + 1 /\
  Z.of_nat index < getJalaliDaysInMonth (JalaliCalendar.jy c) (JalaliCalendar.jm c).
Proof.
  unfold JalaliCalendar.days, Zrange. rewrite !nth_error_map, nth_error_seq.
  destruct (Nat.ltb_spec index
              (Z.to_nat (getJalaliDaysInMonth (JalaliCalendar.jy c) (JalaliCalendar.jm c))));
    simpl; [|discriminate].
  intros [= <-]. split; lia.
Qed.

Lemma getJalaliDaysInMonth_bounds jy jm : 29 <= getJalaliDaysInMonth jy jm <= 31.
Proof.
  unfold getJalaliDaysInMonth.
  destruct (jm <=? 6), (jm <=? 11), (jsrem ((jy + 38) * 31) 128 <=? 30); lia.
Qed.

(** X10. The week days of the grid.  For a Jalali year in 1 to 270000 and
    a month in 1-12, [getDayOfWeekJalali] of the first day is a number
    [startDayOffset] in 0-6, and for the cell at each [index] of [days]
    the week day [(startDayOffset + index) % 7] that the grid computes is
    [getDayOfWeekJalali] of the day of the cell. *)
Theorem dayOfWeekIndex_is_getDayOfWeekJalali (c : JalaliCalendar.currentJalali) :
  1 <= JalaliCalendar.jy c <= 270000 -> 1 <= JalaliCalendar.jm c <= 12 ->
  exists startDayOffset,
    getDayOfWeekJalali (JalaliCalendar.jy c) (JalaliCalendar.jm c) 1 = Some startDayOffset /\
    0 <= startDayOffset <= 6 /\
    forall (index : nat) (day : Z),
      nth_error (JalaliCalendar.days c) index = Some day ->
      getDayOfWeekJalali (JalaliCalendar.jy c) (JalaliCalendar.jm c) day =
      Some (JalaliCalendar.dayOfWeekIndex startDayOffset (Z.of_nat index)).
Proof.
  intros Hy Hm.
  set (jy := JalaliCalendar.jy c) in *. set (jm := JalaliCalendar.jm c) in *.
  pose proof (jalaliDays_bounds jy jm 1 ltac:(lia) Hm ltac:(lia)) as H1.
  exists (jalaliDays jy jm 1 mod 7).
  split; [apply getDayOfWeekJalali_days; lia|].
  pose proof (Z.mod_pos_bound (jalaliDays jy jm 1) 7 ltac:(lia)) as Hs.
  split; [lia|]. intros index day Hday.
  apply nth_error_days in Hday. fold jy jm in Hday. destruct Hday as [-> Hi].
  pose proof (getJalaliDaysInMonth_bounds jy jm) as Hlen.
  pose proof (jalaliDays_bounds jy jm (Z.of_nat index + 1) ltac:(lia) Hm ltac:(lia)) as H2.
  rewrite getDayOfWeekJalali_days by lia. f_equal.
  unfold JalaliCalendar.dayOfWeekIndex. rewrite jsrem_nonneg by lia.
  rewrite Z.add_mod_idemp_l by lia. f_equal. unfold jalaliDays. lia.
Qed.

Lemma dayOfWeekIndex_is_getDayOfWeekJalali_witness :
  let c := {| JalaliCalendar.jy := 1403; JalaliCalendar.jm := 1; JalaliCalendar.jd := 1 |} in
  1 <= JalaliCalendar.jy c <= 270000 /\ 1 <= JalaliCalendar.jm c <= 12 /\
  getDayOfWeekJalali 1403 1 1 = Some 4 /\
  nth_error (JalaliCalendar.days c) 2 = Some 3 /\
  getDayOfWeekJalali 1403 1 3 = Some (JalaliCalendar.dayOfWeekIndex 4 2) /\
  exists startDayOffset,
    getDayOfWeekJalali (JalaliCalendar.jy c) (JalaliCalendar.jm c) 1 = Some startDayOffset /\
    0 <= startDayOffset <= 6 /\
    forall (index : nat) (day : Z),
      nth_error (JalaliCalendar.days c) index = Some day ->
      getDayOfWeekJalali (JalaliCalendar.jy c) (JalaliCalendar.jm c) day =
      Some (JalaliCalendar.dayOfWeekIndex startDayOffset (Z.of_nat index)).
Proof.
  assert (Hy : 1 <= 1403 <= 270000) by lia.
  assert (Hm : 1 <= 1 <= 12) by lia.
  split; [exact Hy|]. split; [exact Hm|].
  split; [vm_compute; reflexivity|]. split; [vm_compute; reflexivity|].
  split; [vm_compute; reflexivity|].
  exact (dayOfWeekIndex_is_getDayOfWeekJalali
           {| JalaliCalendar.jy := 1403; JalaliCalendar.jm := 1; JalaliCalendar.jd := 1 |}
           Hy Hm).
Defined.

(** ** From one month of the view to the next *)

(** X11. The last cell of a month and the first cell of the next.  For a
    month of the years 1300-1500, the first day of the month that
    [handleNextMonth] shows is the day after the last day,
    [getJalaliDaysInMonth], of the month shown; except after Esfand of six
    years: after Esfand 1403, 1436 and 1469 it is two days after the last
    cell (30 Esfand has no cell), and after Esfand 1404, 1437 and 1470 it
    is the same day as the last cell (30 Esfand and 1 Farvardin are the
    same day). *)
Theorem last_cell_and_next_month (c : JalaliCalendar.currentJalali) :
  1300 <= JalaliCalendar.jy c <= 1500 -> 1 <= JalaliCalendar.jm c <= 12 ->
  let n := JalaliCalendar.handleNextMonth c in
  let first := jalaliToGregorian (JalaliCalendar.jy n) (JalaliCalendar.jm n) 1 in
  let '(gy, gm, gd) :=
    jalaliToGregorian (JalaliCalendar.jy c) (JalaliCalendar.jm c)
      (getJalaliDaysInMonth (JalaliCalendar.jy c) (JalaliCalendar.jm c)) in
  (JalaliCalendar.jm c = 12 /\ In (JalaliCalendar.jy c) [1403; 1436; 1469] ->
   first = let '(ny, nm, nd) := nextGregorian gy gm gd in nextGregorian ny nm nd) /\
  (JalaliCalendar.jm c = 12 /\ In (JalaliCalendar.jy c) [1404; 1437; 1470] ->
   first = (gy, gm, gd)) /\
  (~ (JalaliCalendar.jm c = 12 /\
      In (JalaliCalendar.jy c) [1403; 1404; 1436; 1437; 1469; 1470]) ->
   first = nextGregorian gy gm gd).
Proof.
  destruct c as [jy jm jd]. cbn [JalaliCalendar.jy JalaliCalendar.jm]. intros Hy Hm.
  cbv zeta.
  destruct (jalaliToGregorian jy jm (getJalaliDaysInMonth jy jm)) as [[gy gm] gd] eqn:E.
  split; [|split].
  - intros [-> Hin]. simpl in Hin.
    destruct Hin as [<-|[<-|[<-|[]]]]; vm_compute in E; injection E as <- <- <-;
      vm_compute; reflexivity.
  - intros [-> Hin]. simpl in Hin.
    destruct Hin as [<-|[<-|[<-|[]]]]; vm_compute in E; injection E as <- <- <-;
      vm_compute; reflexivity.
  - intros Hex.
    assert (Hlen : getJalaliDaysInMonth jy jm = jalaliMonthLength jy jm).
    { destruct (Z.eq_dec jm 12) as [->|Hne].
      - apply (esfandMismatches_spec 1300 1500); [lia|].
        rewrite esfandMismatches_1300_1500. intros Hin. apply Hex. split; [reflexivity|exact Hin].
      - unfold getJalaliDaysInMonth, jalaliMonthLength.
        destruct (Z.leb_spec jm 6); [reflexivity|].
        destruct (Z.leb_spec jm 11); [reflexivity|lia]. }
    pose proof (jalaliMonthLength_bounds jy jm) as Hb.
    pose proof (jalaliDays_bounds jy jm (jalaliMonthLength jy jm) ltac:(lia) Hm ltac:(lia)) as HN.
    rewrite Hlen in E. unfold jalaliToGregorian in *.
    rewrite jalaliToGregorianCore_steps in *.
    assert (EF : jalaliDays (JalaliCalendar.jy
                   (JalaliCalendar.handleNextMonth
                      {| JalaliCalendar.jy := jy; JalaliCalendar.jm := jm; JalaliCalendar.jd := jd |}))
                   (JalaliCalendar.jm
                   (JalaliCalendar.handleNextMonth
                      {| JalaliCalendar.jy := jy; JalaliCalendar.jm := jm; JalaliCalendar.jd := jd |})) 1
                 = jalaliDays jy jm (jalaliMonthLength jy jm) + 1).
    { replace (jalaliDays jy jm (jalaliMonthLength jy jm) + 1)
        with (jalaliDays jy jm (jalaliMonthLength jy jm + 1)) by (unfold jalaliDays; lia).
      rewrite jalaliDays_next_month by lia.
      unfold JalaliCalendar.handleNextMonth. simpl. destruct (jm =? 12); reflexivity. }
    rewrite EF, gregorianOfDays_next by lia. now rewrite E.
Qed.

Lemma last_cell_and_next_month_witness :
  let c := {| JalaliCalendar.jy := 1404; JalaliCalendar.jm := 12; JalaliCalendar.jd := 1 |} in
  1300 <= JalaliCalendar.jy c <= 1500 /\ 1 <= JalaliCalendar.jm c <= 12 /\
  getJalaliDaysInMonth 1404 12 = 30 /\
  jalaliToGregorian 1404 12 30 = (2026, 3, 21) /\
  jalaliToGregorian 1405 1 1 = (2026, 3, 21) /\
  let n := JalaliCalendar.handleNextMonth c in
  let first := jalaliToGregorian (JalaliCalendar.jy n) (JalaliCalendar.jm n) 1 in
  let '(gy, gm, gd) :=
    jalaliToGregorian (JalaliCalendar.jy c) (JalaliCalendar.jm c)
      (getJalaliDaysInMonth (JalaliCalendar.jy c) (JalaliCalendar.jm c)) in
  (JalaliCalendar.jm c = 12 /\ In (JalaliCalendar.jy c) [1403; 1436; 1469] ->
   first = let '(ny, nm, nd) := nextGregorian gy gm gd in nextGregorian ny nm nd) /\
  (JalaliCalendar.jm c = 12 /\ In (JalaliCalendar.jy c) [1404; 1437; 1470] ->
   first = (gy, gm, gd)) /\
  (~ (JalaliCalendar.jm c = 12 /\
      In (JalaliCalendar.jy c) [1403; 1404; 1436; 1437; 1469; 1470]) ->
   first = nextGregorian gy gm gd).
Proof.
  assert (Hy : 1300 <= 1404 <= 1500) by lia.
  assert (Hm : 1 <= 12 <= 12) by lia.
  split; [exact Hy|]. split; [exact Hm|].
  split; [reflexivity|]. split; [reflexivity|]. split; [reflexivity|].
  exact (last_cell_and_next_month
           {| JalaliCalendar.jy := 1404; JalaliCalendar.jm := 12; JalaliCalendar.jd := 1 |}
           Hy Hm).
Defined.

(** ** The cell of a task *)

Lemma In_calendar_days c d :
  In d (JalaliCalendar.days c) <->
  1 <= d <= getJalaliDaysInMonth (JalaliCalendar.jy c) (JalaliCalendar.jm c).
Proof.
  pose proof (getJalaliDaysInMonth_bounds (JalaliCalendar.jy c) (JalaliCalendar.jm c)) as Hb.
  unfold JalaliCalendar.days. rewrite in_map_iff. split.
  - intros (i & <- & Hi). apply In_Zrange in Hi. lia.
  - intros Hd. exists (d - 1). split; [lia|]. apply Zrange_In. lia.
Qed.

(** The length that [getJalaliDaysInMonth] gives a month of 1300-1500,
    next to the length that the converters give it. *)
Lemma getJalaliDaysInMonth_1300_1500 jy jm :
  1300 <= jy <= 1500 -> 1 <= jm <= 12 ->
  getJalaliDaysInMonth jy jm =
  if (jm =? 12) && existsb (Z.eqb jy) [1403; 1436; 1469] then 29
  else if (jm =? 12) && existsb (Z.eqb jy) [1404; 1437; 1470] then 30
  else jalaliMonthLength jy jm.
Proof.
  intros Hy Hm. destruct (Z.eqb_spec jm 12) as [->|Hne]; simpl.
  - destruct (in_dec Z.eq_dec jy (esfandMismatches 1300 1500)) as [Hin|Hout].
    + rewrite esfandMismatches_1300_1500 in Hin. simpl in Hin.
      destruct Hin as [<-|[<-|[<-|[<-|[<-|[<-|[]]]]]]]; reflexivity.
    + rewrite (esfandMismatches_spec 1300 1500 jy Hy Hout).
      rewrite esfandMismatches_1300_1500 in Hout. simpl in Hout.
      repeat match goal with
      | |- context [jy =? ?k] => destruct (Z.eqb_spec jy k); [exfalso; apply Hout; lia|]
      end.
      reflexivity.
  - unfold getJalaliDaysInMonth, jalaliMonthLength.
    destruct (Z.leb_spec jm 6); [reflexivity|]. destruct (Z.leb_spec jm 11); [reflexivity|lia].
Qed.

(** X12. The cell of a task.  For a task whose due date is a valid date of
    the years 1922-2121, [getDayTasks] lists the task for exactly one month
    shown and one day: the Jalali year, month and day that
    [gregorianToJalali] gives the due date.  The month view has a cell for
    that day, unless the day is 30 Esfand of 1403, 1436 or 1469: a task
    due on such a day is in no cell of the view. *)
Theorem getDayTasks_cell (tasks : list JalaliCalendar.localDate)
    (t : JalaliCalendar.localDate) :
  In t tasks ->
  1922 <= JalaliCalendar.fullYear t <= 2121 ->
  validGregorian (JalaliCalendar.fullYear t) (JalaliCalendar.month t + 1)
                 (JalaliCalendar.date t) ->
  exists jy jm jd,
    gregorianToJalali (JalaliCalendar.fullYear t) (JalaliCalendar.month t + 1)
                      (JalaliCalendar.date t) = Some (jy, jm, jd) /\
    (forall c day,
       In t (JalaliCalendar.getDayTasks c tasks day) <->
       JalaliCalendar.jy c = jy /\ JalaliCalendar.jm c = jm /\ day = jd) /\
    (forall c, JalaliCalendar.jy c = jy -> JalaliCalendar.jm c = jm ->
       (In jd (JalaliCalendar.days c) <->
        ~ (jm = 12 /\ jd = 30 /\ In jy [1403; 1436; 1469]))).
Proof.
  destruct t as [gy mn gd]. cbn [JalaliCalendar.fullYear JalaliCalendar.month JalaliCalendar.date].
  intros Hin Hy Hv. pose proof Hv as [Hm Hd].
  destruct (nth_error g_d_m (Z.to_nat (mn + 1 - 1))) as [off|] eqn:Hoff.
  2:{ apply nth_error_None in Hoff. simpl in Hoff. lia. }
  pose proof (gregorianDays_range gy (mn + 1) gd off ltac:(lia) Hv Hoff) as HR.
  destruct (monthLoop_dayOfYear gy (mn + 1) gd off ltac:(lia) Hv Hoff) as (_ & Hdoy & Ho).
  assert (Hd31 : 0 <= gd <= 31).
  { unfold daysInGregorianMonth in Hd.
    destruct (mn + 1 =? 2), (InLeapYear gy),
      ((mn + 1 =? 4) || (mn + 1 =? 6) || (mn + 1 =? 9) || (mn + 1 =? 11)); lia. }
  pose proof (gregorianDays_dayOfYear gy (mn + 1) gd off ltac:(lia) Hd31 Ho) as HD.
  pose proof (jalaliOfDays_valid (gregorianDays gy (mn + 1) gd off) ltac:(lia)) as HJ.
  assert (EG : gregorianToJalali gy (mn + 1) gd =
               Some (jalaliOfDays (gregorianDays gy (mn + 1) gd off))).
  { unfold gregorianToJalali. apply gregorianToJalaliCore_steps; [lia|assumption]. }
  destruct (jalaliOfDays (gregorianDays gy (mn + 1) gd off)) as [[jy jm] jd].
  destruct HJ as (HJ & Hjy & Hjm & Hjd).
  pose proof (jalaliMonthLength_bounds jy jm) as Hlen.
  assert (Hrel : gy - 622 <= jy <= gy - 621).
  { apply (jalali_year_relation jy jm jd gy (dayOfYear gy (mn + 1) gd off)); try lia.
    - unfold leapDay in Hdoy. destruct (gregorianLeap gy); lia.
    - unfold yearStart. lia. }
  exists jy, jm, jd. split; [exact EG|]. split.
  - intros c day. unfold JalaliCalendar.getDayTasks. rewrite filter_In.
    unfold JalaliCalendar.onDay.
    cbn [JalaliCalendar.fullYear JalaliCalendar.month JalaliCalendar.date].
    rewrite EG, !andb_true_iff, !Z.eqb_eq. split.
    + intros (_ & (E1 & E2) & E3). repeat split; congruence.
    + intros (E1 & E2 & E3). split; [exact Hin|]. repeat split; congruence.
  - assert (F : 1 <= jd <= getJalaliDaysInMonth jy jm <->
                ~ (jm = 12 /\ jd = 30 /\ In jy [1403; 1436; 1469])).
    2:{ intros c Ecy Ecm. rewrite In_calendar_days, Ecy, Ecm. exact F. }
    rewrite (getJalaliDaysInMonth_1300_1500 jy jm) by lia.
    destruct (Z.eqb_spec jm 12) as [E12|N12]; cbn [andb].
    + subst jm.
      assert (Hjd30 : jd <= 30).
      { unfold jalaliMonthLength in Hjd. simpl in Hjd. destruct (jalaliLeap jy); lia. }
      destruct (existsb (Z.eqb jy) [1403; 1436; 1469]) eqn:EA.
      * assert (HinA : In jy [1403; 1436; 1469]).
        { apply existsb_exists in EA. destruct EA as (k & Hk & Ek).
          apply Z.eqb_eq in Ek. now subst k. }
        split; [intros Hle [_ [E30 _]]; lia|].
        intros Hn. split; [lia|].
        assert (jd <> 30) by (intros E30; apply Hn; auto).
        lia.
      * assert (HoutA : ~ In jy [1403; 1436; 1469]).
        { intros HinA. assert (EB : existsb (Z.eqb jy) [1403; 1436; 1469] = true).
          { apply existsb_exists. exists jy. split; [exact HinA|apply Z.eqb_refl]. }
          congruence. }
        split; [intros _ [_ [_ HinA]]; contradiction|]. intros _.
        destruct (existsb (Z.eqb jy) [1404; 1437; 1470]); lia.
    + split; [intros _ [E12 _]; contradiction | intros _; lia].
Qed.

Lemma getDayTasks_cell_witness :
  let t := {| JalaliCalendar.fullYear := 2025; JalaliCalendar.month := 2;
              JalaliCalendar.date := 20 |} in
  In t [t] /\ 1922 <= JalaliCalendar.fullYear t <= 2121 /\
  validGregorian (JalaliCalendar.fullYear t) (JalaliCalendar.month t + 1)
                 (JalaliCalendar.date t) /\
  gregorianToJalali 2025 (2 + 1) 20 = Some (1403, 12, 30) /\
  getJalaliDaysInMonth 1403 12 = 29 /\
  exists jy jm jd,
    gregorianToJalali (JalaliCalendar.fullYear t) (JalaliCalendar.month t + 1)
                      (JalaliCalendar.date t) = Some (jy, jm, jd) /\
    (forall c day,
       In t (JalaliCalendar.getDayTasks c [t] day) <->
       JalaliCalendar.jy c = jy /\ JalaliCalendar.jm c = jm /\ day = jd) /\
    (forall c, JalaliCalendar.jy c = jy -> JalaliCalendar.jm c = jm ->
       (In jd (JalaliCalendar.days c) <->
        ~ (jm = 12 /\ jd = 30 /\ In jy [1403; 1436; 1469]))).
Proof.
  set (t := {| JalaliCalendar.fullYear := 2025; JalaliCalendar.month := 2;
               JalaliCalendar.date := 20 |}).
  assert (Hin : In t [t]) by (left; reflexivity).
  assert (Hy : 1922 <= JalaliCalendar.fullYear t <= 2121) by (simpl; lia).
  assert (Hv : validGregorian (JalaliCalendar.fullYear t) (JalaliCalendar.month t + 1)
                              (JalaliCalendar.date t)) by valid_date.
  split; [exact Hin|]. split; [exact Hy|]. split; [exact Hv|].
  split; [reflexivity|]. split; [reflexivity|].
  exact (getDayTasks_cell [t] t Hin Hy Hv).
Defined.

(** ** The date picker *)

Lemma In_years y : In y JalaliDatePicker.years <-> 1399 <= y <= 1418.
Proof.
  unfold JalaliDatePicker.years, JalaliDatePicker.currentYear. rewrite in_map_iff. split.
  - intros (i & <- & Hi). apply In_Zrange in Hi. simpl in Hi. lia.
  - intros Hy. exists (y - 1399). split; [lia|]. apply Zrange_In. simpl. lia.
Qed.

Lemma In_days d : In d JalaliDatePicker.days <-> 1 <= d <= 31.
Proof.
  unfold JalaliDatePicker.days. rewrite in_map_iff. split.
  - intros (i & <- & Hi). apply In_Zrange in Hi. simpl in Hi. lia.
  - intros Hd. exists (d - 1). split; [lia|]. apply Zrange_In. simpl. lia.
Qed.

Lemma validD_min newY newM newD :
  newM <= 12 ->
  JalaliDatePicker.validD newY newM newD = Z.min newD (getJalaliDaysInMonth newY newM).
Proof.
  intros Hm. unfold JalaliDatePicker.validD, getJalaliDaysInMonth. cbv zeta.
  destruct (Z.leb_spec newM 6), (Z.gtb_spec newM 6), (Z.leb_spec newM 11),
    (Z.eqb_spec newM 12), (Z.gtb_spec newD 31), (Z.gtb_spec newD 30), (Z.gtb_spec newD 29);
    simpl; try lia;
    destruct (jsrem ((newY + 38) * 31) 128 <=? 30); lia.
Qed.

Lemma esfandMismatches_years : esfandMismatches 1399 1418 = [1403; 1404].
Proof. vm_compute. reflexivity. Qed.

(** The length that [getJalaliDaysInMonth] gives a month of the years of
    the selector, next to the length that the converters give it. *)
Lemma getJalaliDaysInMonth_years jy jm :
  1399 <= jy <= 1418 -> 1 <= jm <= 12 ->
  getJalaliDaysInMonth jy jm =
  if jm =? 12 then
    if jy =? 1403 then 29 else if jy =? 1404 then 30 else jalaliMonthLength jy jm
  else jalaliMonthLength jy jm.
Proof.
  intros Hy Hm. destruct (Z.eqb_spec jm 12) as [->|Hne].
  - destruct (Z.eqb_spec jy 1403) as [->|H3]; [reflexivity|].
    destruct (Z.eqb_spec jy 1404) as [->|H4]; [reflexivity|].
    apply (esfandMismatches_spec 1399 1418); [lia|].
    rewrite esfandMismatches_years. simpl. lia.
  - unfold getJalaliDaysInMonth, jalaliMonthLength.
    destruct (Z.leb_spec jm 6); [reflexivity|]. destruct (Z.leb_spec jm 11); [reflexivity|lia].
Qed.

Lemma handleChange_back newY newM newD :
  1399 <= newY <= 1418 -> 1 <= newM <= 12 -> 1 <= newD <= 31 ->
  let '(gy, gm, gd) := JalaliDatePicker.handleChange newY newM newD in
  gregorianToJalali gy gm gd =
  Some (if (newY =? 1404) && (newM =? 12) && (30 <=? newD) then (1405, 1, 1)
        else (newY, newM, JalaliDatePicker.validD newY newM newD)).
Proof.
  intros Hy Hm Hd. unfold JalaliDatePicker.handleChange.
  pose proof (validD_min newY newM newD ltac:(lia)) as HV.
  pose proof (getJalaliDaysInMonth_years newY newM Hy Hm) as HL.
  pose proof (jalaliMonthLength_bounds newY newM) as HB.
  destruct (Z.eqb_spec newY 1404) as [->|H4]; simpl.
  - destruct (Z.eqb_spec newM 12) as [->|H12]; simpl.
    + destruct (Z.leb_spec 30 newD) as [H30|H30].
      * replace (JalaliDatePicker.validD 1404 12 newD) with 30.
        { reflexivity. }
        rewrite HV. change (getJalaliDaysInMonth 1404 12) with 30. lia.
      * apply jalali_round_trip; [lia|lia|]. rewrite HV.
        change (getJalaliDaysInMonth 1404 12) with 30.
        change (jalaliMonthLength 1404 12) with 29. lia.
    + apply jalali_round_trip; [lia|lia|]. rewrite HV, HL.
      rewrite ?(proj2 (Z.eqb_neq newM 12)) by assumption. lia.
  - apply jalali_round_trip; [lia|lia|]. rewrite HV, HL.
    destruct (Z.eqb_spec newM 12) as [->|H12]; [|lia].
    destruct (Z.eqb_spec newY 1403) as [->|H3].
    + change (jalaliMonthLength 1403 12) with 30. lia.
    + rewrite ?(proj2 (Z.eqb_neq newY 1404)) by assumption. lia.
Qed.

(** X13. The day that [handleChange] keeps is the day selected, cut down
    to [getJalaliDaysInMonth] of the year and the month selected when the
    month is at most 12, and to 30 for a month beyond 12. *)
Theorem validD_is_clamped_day (newY newM newD : Z) :
  JalaliDatePicker.validD newY newM newD =
  Z.min newD (if newM <=? 12 then getJalaliDaysInMonth newY newM else 30).
Proof.
  destruct (Z.leb_spec newM 12) as [Hm|Hm]; [now apply validD_min|].
  unfold JalaliDatePicker.validD. cbv zeta.
  destruct (Z.leb_spec newM 6), (Z.gtb_spec newM 6), (Z.eqb_spec newM 12),
    (Z.gtb_spec newD 31), (Z.gtb_spec newD 30); simpl; lia.
Qed.

(** X14. What the picker shows after a selection.  For a year, a month
    and a day of its three selectors, the date that [handleChange] builds,
    read back by [gregorianToJalali] as the picker does with the value it
    receives, is the year and the month selected with the day that
    [handleChange] kept; except that 30 and 31 Esfand 1404 come back as 1
    Farvardin 1405. *)
Theorem handleChange_read_back (newY newM newD : Z) :
  In newY JalaliDatePicker.years -> 1 <= newM <= 12 -> In newD JalaliDatePicker.days ->
  let '(gy, gm, gd) := JalaliDatePicker.handleChange newY newM newD in
  gregorianToJalali gy gm gd =
  Some (if (newY =? 1404) && (newM =? 12) && (30 <=? newD) then (1405, 1, 1)
        else (newY, newM, JalaliDatePicker.validD newY newM newD)).
Proof.
  intros Hy Hm Hd. apply In_years in Hy. apply In_days in Hd.
  now apply handleChange_back.
Qed.

Lemma handleChange_read_back_witness :
  In 1404 JalaliDatePicker.years /\ 1 <= 12 <= 12 /\ In 31 JalaliDatePicker.days /\
  JalaliDatePicker.handleChange 1404 12 31 = (2026, 3, 21) /\
  let '(gy, gm, gd) := JalaliDatePicker.handleChange 1404 12 31 in
  gregorianToJalali gy gm gd =
  Some (if (1404 =? 1404) && (12 =? 12) && (30 <=? 31) then (1405, 1, 1)
        else (1404, 12, JalaliDatePicker.validD 1404 12 31)).
Proof.
  assert (Hy : In 1404 JalaliDatePicker.years) by (apply In_years; lia).
  assert (Hm : 1 <= 12 <= 12) by lia.
  assert (Hd : In 31 JalaliDatePicker.days) by (apply In_days; lia).
  split; [exact Hy|]. split; [exact Hm|]. split; [exact Hd|]. split; [reflexivity|].
  exact (handleChange_read_back 1404 12 31 Hy Hm Hd).
Defined.

(** X15. The dates the picker can report.  For a date of the calendar of
    the converters in a year of the year selector, some selection of year,
    month and day makes [handleChange] build the Gregorian date of it,
    unless the date is 30 Esfand 1403: that day (20 March 2025) is built
    by no selection. *)
Theorem handleChange_reaches (jy jm jd : Z) :
  In jy JalaliDatePicker.years -> 1 <= jm <= 12 -> 1 <= jd <= jalaliMonthLength jy jm ->
  (exists newY newM newD,
     In newY JalaliDatePicker.years /\ 1 <= newM <= 12 /\ In newD JalaliDatePicker.days /\
     JalaliDatePicker.handleChange newY newM newD = jalaliToGregorian jy jm jd) <->
  (jy, jm, jd) <> (1403, 12, 30).
Proof.
  intros Hy Hm Hd. apply In_years in Hy.
  assert (Hd31 : 1 <= jd <= 31).
  { unfold jalaliMonthLength in Hd. destruct (jm <=? 6), (jm <=? 11), (jalaliLeap jy); lia. }
  split.
  - intros (newY & newM & newD & HY & HM & HD & E) [= -> -> ->].
    apply In_years in HY. apply In_days in HD.
    pose proof (handleChange_back newY newM newD HY HM HD) as HB.
    assert (EG : gregorianToJalali 2025 3 20 = Some (1403, 12, 30)) by reflexivity.
    rewrite E in HB. change (jalaliToGregorian 1403 12 30) with (2025, 3, 20) in HB.
    cbv beta iota in HB. rewrite EG in HB.
    destruct ((newY =? 1404) && (newM =? 12) && (30 <=? newD)); [discriminate|].
    injection HB as <- <- HV.
    rewrite validD_min in HV by lia.
    change (getJalaliDaysInMonth 1403 12) with 29 in HV. lia.
  - intros Hne. exists jy, jm, jd.
    split; [apply In_years; exact Hy|]. split; [exact Hm|].
    split; [apply In_days; exact Hd31|].
    unfold JalaliDatePicker.handleChange. f_equal.
    rewrite validD_min by lia.
    rewrite (getJalaliDaysInMonth_years jy jm Hy Hm).
    destruct (Z.eqb_spec jm 12) as [->|H12]; [|lia].
    destruct (Z.eqb_spec jy 1403) as [->|H3].
    + assert (jd <> 30) by (intros ->; apply Hne; reflexivity).
      change (jalaliMonthLength 1403 12) with 30 in Hd. lia.
    + destruct (Z.eqb_spec jy 1404) as [->|H4]; [|lia].
      change (jalaliMonthLength 1404 12) with 29 in Hd. lia.
Qed.

Lemma handleChange_reaches_witness :
  In 1403 JalaliDatePicker.years /\ 1 <= 12 <= 12 /\
  1 <= 30 <= jalaliMonthLength 1403 12 /\
  jalaliToGregorian 1403 12 30 = (2025, 3, 20) /\
  ((exists newY newM newD,
     In newY JalaliDatePicker.years /\ 1 <= newM <= 12 /\ In newD JalaliDatePicker.days /\
     JalaliDatePicker.handleChange newY newM newD = jalaliToGregorian 1403 12 30) <->
   (1403, 12, 30) <> (1403, 12, 30)).
Proof.
  assert (Hy : In 1403 JalaliDatePicker.years) by (apply In_years; lia).
  assert (Hm : 1 <= 12 <= 12) by lia.
  assert (Hd : 1 <= 30 <= jalaliMonthLength 1403 12) by by_evaluation.
  split; [exact Hy|]. split; [exact Hm|]. split; [exact Hd|]. split; [reflexivity|].
  exact (handleChange_reaches 1403 12 30 Hy Hm Hd).
Defined.

(** ** Holidays and the lunar date of a cell *)

(** X16. [isHoliday] and [getHolidayName] agree: a day is a holiday
    exactly when it has a holiday name. *)
Theorem isHoliday_iff_getHolidayName (jy jm jd dayOfWeek : Z) :
  isHoliday jy jm jd dayOfWeek = true <-> is_Some (getHolidayName jy jm jd dayOfWeek).
Proof.
  pose proof (truthy_solarEntry jm jd) as HS.
  pose proof (truthy_lunarEntry jy jm jd) as HL.
  unfold isHoliday, getHolidayName, lunarEntry, solarEntry in *. cbv zeta.
  destruct (getLunarDate jy jm jd) as [[ly lm] ld].
  destruct (truthy (SOLAR_HOLIDAYS !! dateKey jm jd)) eqn:ES.
  - destruct (dayOfWeek =? 6); (split; [intros _; now apply HS | reflexivity]).
  - destruct (truthy (lookupKey LUNAR_HOLIDAYS (numberKey lm ld))) eqn:EL.
    + destruct (dayOfWeek =? 6); (split; [intros _; now apply HL | reflexivity]).
    + destruct (dayOfWeek =? 6); split; try reflexivity; try discriminate.
      * intros _. eexists. reflexivity.
      * intros [x Hx]. discriminate.
Qed.

(** X17. The lunar date of a cell.  For a Jalali year in 1 to 2378, a
    month in 1-12 and a day from 1 to 31, [getLunarDate] returns a month
    that is one of the integers 1-12, for which [lunarMonthNames] has a
    name, and a day that is one of the integers 1-30. *)
Theorem getLunarDate_valid (jy jm jd : Z) :
  1 <= jy <= 2378 -> 1 <= jm <= 12 -> 1 <= jd <= 31 ->
  let '(ly, lm, ld) := getLunarDate jy jm jd in
  exists m d name,
    numberIs lm m = true /\ numberIs ld d = true /\
    1 <= m <= 12 /\ 1 <= d <= 30 /\
    nth_error lunarMonthNames (Z.to_nat (m - 1)) = Some name.
Proof.
  intros Hy Hm Hd.
  pose proof (jalaliDays_bounds jy jm jd ltac:(lia) Hm ltac:(lia)) as HN.
  unfold getLunarDate, jalaliToGregorian. rewrite jalaliToGregorianCore_steps.
  destruct (gregorianOfDays_spec (jalaliDays jy jm jd) ltac:(lia))
    as (gy & gm & gd & off & E & Hgy & Hv & Hoff & EN).
  rewrite E.
  destruct (monthLoop_dayOfYear gy gm gd off ltac:(lia) Hv Hoff) as (_ & Hdoy & _).
  assert (Hrel : gy - 622 <= jy <= gy - 621 \/ 1000000 < gy).
  { destruct (Z.le_gt_cases gy 1000000); [left|right; assumption].
    apply (jalali_year_relation jy jm jd gy (dayOfYear gy gm gd off)); try lia.
    unfold leapDay in Hdoy. destruct (gregorianLeap gy); lia. }
  assert (Hgy' : 1 <= gy <= 3000).
  { destruct Hrel as [?|Hbig]; [lia|].
    pose proof (yearStart_lower gy ltac:(lia)). lia. }
  pose proof (forallGregorianNumbers_spec _ _ _ hijriOfGregorianValid_1_3000 _ _ _ Hgy' Hv) as HH.
  unfold hijriOfGregorianValid in HH. apply validHijrib_spec in HH.
  destruct (gregorianToHijri (num gy) (num gm) (num gd)) as [[ly lm] ld].
  destruct HH as (m & d & Em & Ed & Hm' & Hd').
  destruct (nth_error lunarMonthNames (Z.to_nat (m - 1))) as [name|] eqn:Hname.
  2:{ apply nth_error_None in Hname. simpl in Hname. lia. }
  exists m, d, name. repeat split; try assumption; lia.
Qed.

Lemma getLunarDate_valid_witness :
  1 <= 1404 <= 2378 /\ 1 <= 11 <= 12 /\ 1 <= 1 <= 31 /\
  intsOfNumbers (getLunarDate 1404 11 1) = Some (1447, 8, 1) /\
  let '(ly, lm, ld) := getLunarDate 1404 11 1 in
  exists m d name,
    numberIs lm m = true /\ numberIs ld d = true /\
    1 <= m <= 12 /\ 1 <= d <= 30 /\
    nth_error lunarMonthNames (Z.to_nat (m - 1)) = Some name.
Proof.
  assert (Hy : 1 <= 1404 <= 2378) by lia.
  assert (Hm : 1 <= 11 <= 12) by lia.
  assert (Hd : 1 <= 1 <= 31) by lia.
  split; [exact Hy|]. split; [exact Hm|]. split; [exact Hd|].
  split; [vm_compute; reflexivity|].
  exact (getLunarDate_valid 1404 11 1 Hy Hm Hd).
Defined.

(** ** The keys of the holiday tables *)

Lemma string_of_uint_no_dash u : containsDash (NilEmpty.string_of_uint u) = false.
Proof. induction u; simpl; auto. Qed.

(** A text without the separator, the separator and a rest: the three
    parts are read back from the whole. *)
Lemma split_at_dash a a' b b' :
  containsDash a = false -> containsDash a' = false ->
  (a ++ String "-" b)%string = (a' ++ String "-" b')%string -> a = a' /\ b = b'.
Proof.
  revert a'. induction a as [|c a IH]; intros [|c' a'] Ha Ha' E; simpl in *.
  - injection E as E. now split.
  - injection E as Ec E. subst c'. simpl in Ha'. discriminate.
  - injection E as Ec E. subst c. simpl in Ha. discriminate.
  - injection E as Ec E. subst c'.
    apply orb_false_iff in Ha. apply orb_false_iff in Ha'.
    destruct (IH a' (proj2 Ha) (proj2 Ha') E) as [-> ->]. now split.
Qed.

(** The digits of an integer: a text without the separator, after a minus
    sign when the integer is negative; the first digit is not the
    separator. *)
Lemma decimal_shape z :
  exists s, containsDash s = false /\ s <> EmptyString /\
    (decimal z = s \/ decimal z = String "-" s).
Proof.
  unfold decimal. destruct z as [|p|p]; simpl.
  - exists "0"%string. repeat split; [discriminate | now left].
  - exists (NilEmpty.string_of_uint (Pos.to_uint p)).
    pose proof (Unsigned.to_uint_nonnil p) as Hn.
    split; [apply string_of_uint_no_dash|]. split.
    + destruct (Pos.to_uint p); [contradiction|discriminate..].
    + left. unfold NilZero.string_of_uint. destruct (Pos.to_uint p); [contradiction|reflexivity..].
  - exists (NilEmpty.string_of_uint (Pos.to_uint p)).
    pose proof (Unsigned.to_uint_nonnil p) as Hn.
    split; [apply string_of_uint_no_dash|]. split.
    + destruct (Pos.to_uint p); [contradiction|discriminate..].
    + right. unfold NilZero.string_of_uint. destruct (Pos.to_uint p); [contradiction|reflexivity..].
Qed.

Lemma decimal_inj a b : decimal a = decimal b -> a = b.
Proof.
  unfold decimal. intros E.
  assert (Hisi : forall z, NilZero.int_of_string (NilZero.string_of_int (Z.to_int z)) =
                           Some (Z.to_int z)).
  { intros z. apply NilZero.isi; destruct z as [|p|p]; simpl; try discriminate;
      intros [= H]; exact (Unsigned.to_uint_nonnil p H). }
  pose proof (Hisi a) as Ha. rewrite E, Hisi in Ha. injection Ha as Ha.
  rewrite <- (DecimalZ.of_to a), <- (DecimalZ.of_to b). now rewrite Ha.
Qed.

Lemma dateKey_inj m d m' d' : dateKey m d = dateKey m' d' -> m = m' /\ d = d'.
Proof.
  unfold dateKey. intros E.
  change ("-" ++ decimal d)%string with (String "-" (decimal d)) in E.
  change ("-" ++ decimal d')%string with (String "-" (decimal d')) in E.
  destruct (decimal_shape m) as (s & Hs & Hne & Hm).
  destruct (decimal_shape m') as (s' & Hs' & Hne' & Hm').
  assert (Hfirst : forall t r, containsDash t = false -> t <> EmptyString ->
            forall u, (t ++ r)%string <> String "-" u).
  { intros [|c t] r Ht Hnt u; [contradiction|]. simpl. intros [= -> _].
    simpl in Ht. discriminate. }
  destruct Hm as [Em|Em], Hm' as [Em'|Em']; rewrite Em, Em' in E.
  - destruct (split_at_dash _ _ _ _ Hs Hs' E) as [Es Ed].
    split; apply decimal_inj; congruence.
  - exfalso. simpl in E. exact (Hfirst _ _ Hs Hne _ E).
  - exfalso. simpl in E. symmetry in E. exact (Hfirst _ _ Hs' Hne' _ E).
  - simpl in E. injection E as E.
    destruct (split_at_dash _ _ _ _ Hs Hs' E) as [Es Ed].
    split; apply decimal_inj; congruence.
Qed.

(** X18. The key [`${m}-${d}`] of the holiday tables tells the month and
    the day apart: two pairs of integers with the same key are the same
    pair. *)
Theorem dateKey_injective (m d m' d' : Z) :
  dateKey m d = dateKey m' d' <-> m = m' /\ d = d'.
Proof.
  split; [apply dateKey_inj|]. intros [-> ->]. reflexivity.
Qed.

(** X19. The solar holidays are ten dates of the year.  For any integers
    [jm] and [jd], the key [jm-jd] is in the solar table exactly when
    (month, day) is one of 1-4, 12 and 13 Farvardin, 14 and 15 Khordad, 22
    Bahman and 29 Esfand; on these dates [isHoliday] is true in every year
    and on every week day. *)
Theorem solar_holiday_dates (jm jd : Z) :
  (is_Some (solarEntry jm jd) <-> In (jm, jd) solarHolidayDates) /\
  (In (jm, jd) solarHolidayDates ->
   forall jy dayOfWeek, isHoliday jy jm jd dayOfWeek = true).
Proof.
  assert (Hback : In (jm, jd) solarHolidayDates -> is_Some (solarEntry jm jd)).
  { intros Hin. simpl in Hin.
    repeat (destruct Hin as [[= <- <-]|Hin]; [eexists; vm_compute; reflexivity|]).
    contradiction. }
  split; [split; [|exact Hback]|].
  - intros [v Hv]. unfold solarEntry, SOLAR_HOLIDAYS in Hv.
    apply elem_of_list_to_map_2 in Hv. apply list_elem_of_In in Hv.
    simpl in Hv.
    repeat (destruct Hv as [Hv|Hv];
            [ injection Hv as Hk _;
              match type of Hk with
              | ?k = _ =>
                  match goal with
                  | |- In _ ?l =>
                      let p := eval vm_compute in
                        (List.find (fun p => String.eqb (dateKey (fst p) (snd p)) k) l) in
                      match p with
                      | Some (?a, ?b) =>
                          change k with (dateKey a b) in Hk;
                          apply dateKey_inj in Hk; destruct Hk as [<- <-];
                          simpl; tauto
                      end
                  end
              end |]).
    contradiction.
  - intros Hin jy dayOfWeek. apply Hback in Hin.
    apply truthy_solarEntry in Hin. unfold solarEntry in Hin.
    unfold isHoliday. cbv zeta. rewrite Hin.
    destruct (dayOfWeek =? 6); reflexivity.
Qed.

(** ** The Julian Day Number and the Hijri date, day after day *)

Lemma gregorianDayNumber_dayOfYear gy gm gd off :
  0 <= gy -> 1 <= gm <= 12 ->
  nth_error g_d_m (Z.to_nat (gm - 1)) = Some off ->
  gregorianDayNumber gy gm gd = yearStart gy + dayOfYear gy gm gd off.
Proof.
  intros Hy Hm Hoff. unfold gregorianDayNumber, dayOfYear, leapDay.
  rewrite <- gregorianLeap_InLeapYear by lia.
  assert (Hcases : gm = 1 \/ gm = 2 \/ gm = 3 \/ gm = 4 \/ gm = 5 \/ gm = 6 \/
                   gm = 7 \/ gm = 8 \/ gm = 9 \/ gm = 10 \/ gm = 11 \/ gm = 12) by lia.
  repeat (destruct Hcases as [-> | Hcases]); try subst gm;
    simpl in Hoff; injection Hoff as <-;
    destruct (gregorianLeap gy);
    match goal with
    | |- context [daysBeforeMonth ?b ?m] =>
        let v := eval vm_compute in (daysBeforeMonth b m) in
        change (daysBeforeMonth b m) with v
    end; simpl; lia.
Qed.

(** The day number of the next date is the next number. *)
Lemma gregorianDayNumber_next gy gm gd :
  0 <= gy -> validGregorian gy gm gd ->
  let '(ny, nm, nd) := nextGregorian gy gm gd in
  validGregorian ny nm nd /\ gy <= ny <= gy + 1 /\
  gregorianDayNumber ny nm nd = gregorianDayNumber gy gm gd + 1.
Proof.
  intros Hy Hv. pose proof Hv as [Hm Hd].
  destruct (nth_error g_d_m (Z.to_nat (gm - 1))) as [off|] eqn:Hoff.
  2:{ apply nth_error_None in Hoff. simpl in Hoff. lia. }
  pose proof (nextGregorian_count gy gm gd off Hy Hv Hoff) as HX.
  destruct (nextGregorian gy gm gd) as [[ny nm] nd].
  destruct HX as (Hv' & Hny & off' & Hoff' & EN).
  split; [exact Hv'|]. split; [exact Hny|].
  rewrite (gregorianDayNumber_dayOfYear gy gm gd off) by assumption.
  rewrite (gregorianDayNumber_dayOfYear ny nm nd off') by (lia || apply Hv' || assumption).
  exact EN.
Qed.

Lemma forallJdn_spec lo hi :
  forallJdn lo hi = true ->
  forall gy gm gd, lo <= gy <= hi -> validGregorian gy gm gd ->
    jdnCheck (num gy) (num gm) (num gd) (gregorianDayNumber gy gm gd + jdnOfYearZero) = true.
Proof.
  intros H gy gm gd Hy [Hm Hd].
  pose proof (forallRange_spec _ _ _ H gy Hy) as H1. cbv beta zeta in H1.
  pose proof (forallRange_spec _ _ _ H1 gm Hm) as H2. cbv beta zeta in H2.
  pose proof (forallRange_spec _ _ _ H2 gd Hd) as H3. cbv beta in H3.
  replace (gregorianDayNumber gy gm gd + jdnOfYearZero)
    with (yearStart gy + jdnOfYearZero - 1 + daysBeforeMonth (InLeapYear gy) (gm - 1) + gd)
    by (unfold gregorianDayNumber; lia).
  exact H3.
Qed.

Lemma forallJdn_1583_3001 : forallJdn 1583 3001 = true.
Proof. vm_cast_no_check (eq_refl true). Qed.

Lemma gregorianToJdn_dayNumber gy gm gd :
  1583 <= gy <= 3001 -> validGregorian gy gm gd ->
  gregorianToJdn (num gy) (num gm) (num gd) = num (gregorianDayNumber gy gm gd + jdnOfYearZero).
Proof.
  intros Hy Hv.
  pose proof (forallJdn_spec _ _ forallJdn_1583_3001 gy gm gd Hy Hv) as H.
  unfold jdnCheck in H. apply andb_true_iff in H. destruct H as [H _].
  now apply Leibniz.eqb_spec in H.
Qed.

Lemma gregorianToHijri_jdn gy gm gd :
  gregorianToHijri gy gm gd = jdnToHijri (gregorianToJdn gy gm gd + CALIBRATION_OFFSET)%float.
Proof.
  unfold gregorianToHijri. cbv zeta.
  destruct (jdnToGregorian _) as [[year month] day]. reflexivity.
Qed.

(** The Hijri date of the day after a date is the day after the Hijri
    date of the date. *)
Lemma gregorianToHijri_next gy gm gd :
  1583 <= gy <= 3000 -> validGregorian gy gm gd ->
  let '(ny, nm, nd) := nextGregorian gy gm gd in
  hijriFollows (gregorianToHijri (num gy) (num gm) (num gd))
               (gregorianToHijri (num ny) (num nm) (num nd)) = true.
Proof.
  intros Hy Hv.
  pose proof (gregorianDayNumber_next gy gm gd ltac:(lia) Hv) as HX.
  destruct (nextGregorian gy gm gd) as [[ny nm] nd].
  destruct HX as (Hv' & Hny & EN).
  rewrite !gregorianToHijri_jdn.
  rewrite (gregorianToJdn_dayNumber gy gm gd) by (lia || assumption).
  rewrite (gregorianToJdn_dayNumber ny nm nd) by (lia || assumption).
  rewrite EN.
  pose proof (forallJdn_spec _ _ forallJdn_1583_3001 gy gm gd ltac:(lia) Hv) as H.
  unfold jdnCheck in H. apply andb_true_iff in H. destruct H as [_ H].
  unfold jdnToHijriStep in H.
  replace (gregorianDayNumber gy gm gd + 1 + jdnOfYearZero)
    with (gregorianDayNumber gy gm gd + jdnOfYearZero + 1) by lia.
  exact H.
Qed.

(** X20. For every valid Gregorian date of the years 1583-3000, the
    first half of [gregorianToHijri] computes, exactly, the number of
    days from 1 January of the year 0 to the date plus 1721060: an
    integer that grows by one from each day to the next. *)
Theorem gregorianToJdn_is_day_number (gy gm gd : Z) :
  1583 <= gy <= 3000 -> validGregorian gy gm gd ->
  gregorianToJdn (num gy) (num gm) (num gd) =
  num (gregorianDayNumber gy gm gd + jdnOfYearZero) /\
  (let '(ny, nm, nd) := nextGregorian gy gm gd in
   gregorianToJdn (num ny) (num nm) (num nd) =
   num (gregorianDayNumber gy gm gd + jdnOfYearZero + 1)).
Proof.
  intros Hy Hv. split; [apply gregorianToJdn_dayNumber; [lia|assumption]|].
  pose proof (gregorianDayNumber_next gy gm gd ltac:(lia) Hv) as HX.
  destruct (nextGregorian gy gm gd) as [[ny nm] nd].
  destruct HX as (Hv' & Hny & EN).
  rewrite (gregorianToJdn_dayNumber ny nm nd) by (lia || assumption).
  f_equal. lia.
Qed.

Lemma gregorianToJdn_is_day_number_witness :
  1583 <= 2000 <= 3000 /\ validGregorian 2000 1 1 /\
  intOfNumber (gregorianToJdn (num 2000) (num 1) (num 1)) = Some 2451545 /\
  gregorianDayNumber 2000 1 1 = 730485 /\
  gregorianToJdn (num 2000) (num 1) (num 1) =
  num (gregorianDayNumber 2000 1 1 + jdnOfYearZero) /\
  (let '(ny, nm, nd) := nextGregorian 2000 1 1 in
   gregorianToJdn (num ny) (num nm) (num nd) =
   num (gregorianDayNumber 2000 1 1 + jdnOfYearZero + 1)).
Proof.
  assert (Hy : 1583 <= 2000 <= 3000) by lia.
  assert (Hv : validGregorian 2000 1 1) by valid_date.
  split; [exact Hy|]. split; [exact Hv|].
  split; [vm_compute; reflexivity|]. split; [vm_compute; reflexivity|].
  exact (gregorianToJdn_is_day_number 2000 1 1 Hy Hv).
Defined.

(** X21. For every valid Gregorian date of the years 1583-3000, the
    Hijri date that [gregorianToHijri] gives the next day is the day after
    the Hijri date it gives the date: the next day of the same month, or,
    after a 29th or a 30th, the first day of the next month (of the first
    month of the next year after the twelfth).  No day is skipped or
    repeated and every month has 29 or 30 days. *)
Theorem gregorianToHijri_day_after_day (gy gm gd : Z) :
  1583 <= gy <= 3000 -> validGregorian gy gm gd ->
  let '(ny, nm, nd) := nextGregorian gy gm gd in
  hijriFollows (gregorianToHijri (num gy) (num gm) (num gd))
               (gregorianToHijri (num ny) (num nm) (num nd)) = true.
Proof. apply gregorianToHijri_next. Qed.

Lemma gregorianToHijri_day_after_day_witness :
  1583 <= 2026 <= 3000 /\ validGregorian 2026 2 18 /\
  nextGregorian 2026 2 18 = (2026, 2, 19) /\
  intsOfNumbers (gregorianToHijri (num 2026) (num 2) (num 18)) = Some (1447, 8, 29) /\
  intsOfNumbers (gregorianToHijri (num 2026) (num 2) (num 19)) = Some (1447, 9, 1) /\
  let '(ny, nm, nd) := nextGregorian 2026 2 18 in
  hijriFollows (gregorianToHijri (num 2026) (num 2) (num 18))
               (gregorianToHijri (num ny) (num nm) (num nd)) = true.
Proof.
  assert (Hy : 1583 <= 2026 <= 3000) by lia.
  assert (Hv : validGregorian 2026 2 18) by valid_date.
  split; [exact Hy|]. split; [exact Hv|]. split; [reflexivity|].
  split; [vm_compute; reflexivity|]. split; [vm_compute; reflexivity|].
  exact (gregorianToHijri_day_after_day 2026 2 18 Hy Hv).
Defined.

(** X22. The lunar dates of the cells of a month.  For a Jalali year in
    962 to 2378, a month in 1-12 and a day from 1 to 30, the date that
    [getLunarDate] gives the next day of the month is the day after the
    date it gives the day. *)
Theorem getLunarDate_day_after_day (jy jm jd : Z) :
  962 <= jy <= 2378 -> 1 <= jm <= 12 -> 1 <= jd <= 30 ->
  hijriFollows (getLunarDate jy jm jd) (getLunarDate jy jm (jd + 1)) = true.
Proof.
  intros Hy Hm Hd.
  pose proof (jalaliDays_bounds jy jm jd ltac:(lia) Hm ltac:(lia)) as HN.
  unfold getLunarDate, jalaliToGregorian. rewrite !jalaliToGregorianCore_steps.
  replace (jalaliDays jy jm (jd + 1)) with (jalaliDays jy jm jd + 1)
    by (unfold jalaliDays; lia).
  rewrite gregorianOfDays_next by lia.
  destruct (gregorianOfDays_spec (jalaliDays jy jm jd) ltac:(lia))
    as (gy & gm & gd & off & E & Hgy & Hv & Hoff & EN).
  rewrite E.
  destruct (monthLoop_dayOfYear gy gm gd off ltac:(lia) Hv Hoff) as (_ & Hdoy & _).
  assert (Hrel : gy - 622 <= jy <= gy - 621 \/ 1000000 < gy).
  { destruct (Z.le_gt_cases gy 1000000); [left|right; assumption].
    apply (jalali_year_relation jy jm jd gy (dayOfYear gy gm gd off)); try lia.
    unfold leapDay in Hdoy. destruct (gregorianLeap gy); lia. }
  assert (Hgy' : 1583 <= gy <= 3000).
  { destruct Hrel as [?|Hbig]; [lia|].
    pose proof (yearStart_lower gy ltac:(lia)). lia. }
  pose proof (gregorianToHijri_next gy gm gd Hgy' Hv) as HH.
  destruct (nextGregorian gy gm gd) as [[ny nm] nd]. exact HH.
Qed.

Lemma getLunarDate_day_after_day_witness :
  962 <= 1404 <= 2378 /\ 1 <= 11 <= 12 /\ 1 <= 29 <= 30 /\
  intsOfNumbers (getLunarDate 1404 11 29) = Some (1447, 8, 29) /\
  intsOfNumbers (getLunarDate 1404 11 (29 + 1)) = Some (1447, 9, 1) /\
  hijriFollows (getLunarDate 1404 11 29) (getLunarDate 1404 11 (29 + 1)) = true.
Proof.
  assert (Hy : 962 <= 1404 <= 2378) by lia.
  assert (Hm : 1 <= 11 <= 12) by lia.
  assert (Hd : 1 <= 29 <= 30) by lia.
  split; [exact Hy|]. split; [exact Hm|]. split; [exact Hd|].
  split; [vm_compute; reflexivity|]. split; [vm_compute; reflexivity|].
  exact (getLunarDate_day_after_day 1404 11 29 Hy Hm Hd).
Defined.
